(** * The Sciospec EIT device controller ([eit_app/io/sciospec/device.py])

    A shallow embedding of the class [SciospecEITDevice]: the measurement
    life cycle (Idle / Measuring / Paused), the decorator
    [check_not_measuring] that guards the operations of the device, the
    scan and connection of devices and the push of a setup.

    The object is a record, its methods are computations of a state monad
    over that record.  Everything the methods do to the outside (signals
    fired to the GUI, to the dataset and to the capture device, message
    boxes, command frames handed to the communicator, the settle delay) is
    appended to a chronological trace kept in the record.  Calls of the
    [logging] module are not part of the model. *)

From Stdlib Require Import ZArith List Bool Ascii String.
From Stdlib.Strings Require Import Byte.
From stdpp Require Import base gmap strings list.
Import ListNotations.

Local Open Scope string_scope.
Local Open Scope Z_scope.

(** ** Constants and enumerations *)

Definition NONE_DEVICE : string := "None Device".

(** Modelled from the spec: the enum [MeasuringStates] is imported by
    [device.py] from [eit_app.update_event]; the sources only hold an older
    [update_event.py] (with [LiveMeasState]).  The spec gives the three
    states, [device.py] their names. *)
Inductive MeasuringStates := IDLE | MEASURING | PAUSED.

Definition MeasuringStates_eqb (a b : MeasuringStates) : bool :=
  match a, b with
  | IDLE, IDLE | MEASURING, MEASURING | PAUSED, PAUSED => true
  | _, _ => false
  end.

(** Modelled from the spec: [com_constants.py] is not among the sources.
    The commands and options are the closed enumerations the spec
    describes, with the names [device.py] imports; their tag bytes are not
    needed here. *)
Inductive SciospecCmd :=
| CMD_GET_DEVICE_INFOS | CMD_GET_ETHERNET_CONFIG | CMD_GET_MEAS_SETUP
| CMD_GET_OUTPUT_CONFIG | CMD_SET_ETHERNET_CONFIG | CMD_SET_MEAS_SETUP
| CMD_SET_OUTPUT_CONFIG | CMD_SOFT_RESET | CMD_START_STOP_MEAS.

Inductive SciospecOption :=
| OP_BURST_COUNT | OP_CURRENT_STAMP | OP_DHCP | OP_EXC_AMPLITUDE
| OP_EXC_FREQUENCIES | OP_EXC_PATTERN | OP_EXC_STAMP | OP_FRAME_RATE
| OP_IP_ADRESS | OP_MAC_ADRESS | OP_NULL | OP_RESET_SETUP | OP_START_MEAS
| OP_STOP_MEAS | OP_TIME_STAMP.

(** ** The collaborators of the controller

    [SciospecSetup] (the setup store), [SciospecSerialInterface] and
    [SciospecCommunicator] are classes of the repository whose files are
    not among the sources, and [MultiStatewSignal] comes from the library
    [glob_utils].  The controller only calls their methods, so they are
    taken as interfaces: every theorem below holds for all
    implementations. *)

(** The methods of the setup store that [device.py] calls. *)
Class SetupStore (Setup : Type) := {
  (** [setup.get_sn(in_bytes=True)] *)
  get_sn : Setup -> list byte;
  (** [setup.set_sn(sn)] *)
  set_sn : list byte -> Setup -> Setup;
  (** [setup.get_burst()] *)
  get_burst : Setup -> Z;
  (** [setup.get_exc_pattern()], one row per injection *)
  get_exc_pattern : Setup -> list (list Z);
  (** [setup.set_exc_pattern_idx(idx)] *)
  set_exc_pattern_idx : nat -> Setup -> Setup;
  (** [setup.get_data(cmd, op)], the payload of an outbound frame *)
  get_data : SciospecCmd -> SciospecOption -> Setup -> list byte;
  (** [setup.build_sciospec_device_name(port)] *)
  build_sciospec_device_name : string -> Setup -> option string;
  (** [setup.reinit()] *)
  setup_reinit : Setup -> Setup
}.

(** The serial interface and the communicator share the state [World] of
    the link.  The communicator delivers the setup replies it receives to
    [setup.set_data] (signal [new_rx_setup_stream]), so its two methods may
    change the setup. *)
Class Hardware (Setup World : Type) := {
  (** [serial_interface.get_ports_available()] *)
  get_ports_available : World -> list string * World;
  (** [serial_interface.open(port, baudrate)], always called with the
      default baudrate *)
  interface_open : string -> World -> bool * World;
  (** [serial_interface.close()] *)
  interface_close : World -> bool * World;
  (** [serial_interface.reinit()] *)
  interface_reinit : World -> World;
  (** [serial_interface.is_connected.is_set()] *)
  interface_is_connected : World -> bool;
  (** [communicator.send_cmd_frame(serial_interface, cmd, op, data)] *)
  send_cmd_frame :
    SciospecCmd -> SciospecOption -> list byte -> World -> Setup ->
    bool * World * Setup;
  (** [communicator.wait_not_busy()] *)
  wait_not_busy : World -> Setup -> World * Setup;
  (** whether [MultiStatewSignal.change_state] fires its signal [changed]
      when going from the first state to the second *)
  changed_fires : MeasuringStates -> MeasuringStates -> bool
}.

Section Device.

Context {Setup World : Type} `{!SetupStore Setup} `{!Hardware Setup World}.

(** ** Notifications ([update_event.py]) and the trace *)

(** The event dataclasses the device posts to the GUI.  [idx_frame] is
    optional because [pause_meas] posts [FrameProgress(None, 0)]. *)
Inductive EventDataClass :=
| DevAvailables (device : gmap string string)
| DevStatus (connected : bool) (status_prompt : string)
| DevSetup (setup : Setup)
| MeasuringStatus (state : MeasuringStates)
| FrameProgress (idx_frame : option Z) (progression : Z)
| FrameInfo (info : string).

(** The keyword arguments fired on [to_dataset]. *)
Inductive DatasetMsg :=
| reinit_4_pause
| dev_setup (setup : Setup).

Inductive Effect :=
| ToGui (update_gui_data : EventDataClass)
| ToCaptureDev (meas_status_dev : bool)
| ToDataset (kwargs : DatasetMsg)
| InfoMsgBox (title msg : string)
| WarningMsgBox (title msg : string)
| ErrorMsgBox (title msg : string)
| SendCmdFrame (cmd : SciospecCmd) (op : SciospecOption) (data : list byte)
| Sleep (seconds : Z).

(** ** The device object *)

Record SciospecEITDevice := mkDevice {
  n_channel : Z;
  sciospec_devices : gmap string string;
  device_name : string;
  meas_status : MeasuringStates;
  setup : Setup;
  world : World;
  trace : list Effect
}.

Definition with_sciospec_devices (d : gmap string string) (self : SciospecEITDevice) :=
  mkDevice (n_channel self) d (device_name self) (meas_status self)
           (setup self) (world self) (trace self).
Definition with_device_name (n : string) (self : SciospecEITDevice) :=
  mkDevice (n_channel self) (sciospec_devices self) n (meas_status self)
           (setup self) (world self) (trace self).
Definition with_meas_status (st : MeasuringStates) (self : SciospecEITDevice) :=
  mkDevice (n_channel self) (sciospec_devices self) (device_name self) st
           (setup self) (world self) (trace self).
Definition with_setup (su : Setup) (self : SciospecEITDevice) :=
  mkDevice (n_channel self) (sciospec_devices self) (device_name self)
           (meas_status self) su (world self) (trace self).
Definition with_world (w : World) (self : SciospecEITDevice) :=
  mkDevice (n_channel self) (sciospec_devices self) (device_name self)
           (meas_status self) (setup self) w (trace self).
Definition with_trace (t : list Effect) (self : SciospecEITDevice) :=
  mkDevice (n_channel self) (sciospec_devices self) (device_name self)
           (meas_status self) (setup self) (world self) t.

(** [SciospecEITDevice.__init__], on a given link and setup store. *)
Definition init (n : Z) (su : Setup) (w : World) : SciospecEITDevice :=
  mkDevice n ∅ NONE_DEVICE IDLE su w [].

(** ** The monad of the methods *)

Definition M (A : Type) : Type := SciospecEITDevice -> A * SciospecEITDevice.

Definition ret {A} (a : A) : M A := fun self => (a, self).
Definition bind {A B} (m : M A) (k : A -> M B) : M B :=
  fun self => let (a, self') := m self in k a self'.
Definition get : M SciospecEITDevice := fun self => (self, self).
Definition modify (f : SciospecEITDevice -> SciospecEITDevice) : M unit :=
  fun self => (tt, f self).
Definition emit (e : Effect) : M unit :=
  modify (fun self => with_trace (trace self ++ [e]) self).

Notation "x <- c1 ;; c2" := (bind c1 (fun x => c2))
  (at level 100, c1 at next level, right associativity).
Notation "c1 ;; c2" := (bind c1 (fun _ => c2))
  (at level 100, right associativity).

(** A [for] loop over a list. *)
Fixpoint for_each {A} (l : list A) (body : A -> M unit) : M unit :=
  match l with
  | [] => ret tt
  | x :: l' => body x ;; for_each l' body
  end.

(** ** Methods to update the GUI *)

Definition is_connected (self : SciospecEITDevice) : bool :=
  interface_is_connected (world self).

Definition connect_prompt (self : SciospecEITDevice) : string :=
  String.append (device_name self) " - CONNECTED".

Definition is_measuring (self : SciospecEITDevice) : bool :=
  MeasuringStates_eqb (meas_status self) MEASURING.
Definition is_paused (self : SciospecEITDevice) : bool :=
  MeasuringStates_eqb (meas_status self) PAUSED.
Definition is_idle (self : SciospecEITDevice) : bool :=
  MeasuringStates_eqb (meas_status self) IDLE.

Definition emit_to_gui (data : EventDataClass) : M unit := emit (ToGui data).

Definition emit_to_capture_dev : M unit :=
  self <- get ;;
  let status := is_measuring self || is_paused self in
  emit (ToCaptureDev status).

Definition emit_meas_status : M unit :=
  self <- get ;;
  emit_to_gui (MeasuringStatus (meas_status self)) ;;
  emit_to_capture_dev.

Definition emit_dev_status : M unit :=
  self <- get ;;
  emit_to_gui (DevStatus (is_connected self) (connect_prompt self)).

(** [meas_status.change_state(state)]; [__init__] connects the signal
    [changed] to [emit_meas_status]. *)
Definition change_state (state : MeasuringStates) : M unit :=
  self <- get ;;
  modify (with_meas_status state) ;;
  if changed_fires (meas_status self) state then emit_meas_status else ret tt.

(** ** Methods for the dataset *)

Definition emit_to_dataset (kwargs : DatasetMsg) : M unit := emit (ToDataset kwargs).

Definition dataset_init_for_pause : M unit := emit_to_dataset reinit_4_pause.

Definition dataset_init_for_start : M unit :=
  self <- get ;;
  emit_to_dataset (dev_setup (setup self)).

(** ** Message boxes ([glob_utils.msgbox]) *)

Definition infoMsgBox (title msg : string) : M unit := emit (InfoMsgBox title msg).
Definition warningMsgBox (title msg : string) : M unit := emit (WarningMsgBox title msg).
Definition errorMsgBox (title msg : string) : M unit := emit (ErrorMsgBox title msg).

(** ** Methods on the communicator *)

Definition send_communicator (cmd : SciospecCmd) (op : SciospecOption) : M bool :=
  fun self =>
    let data := get_data cmd op (setup self) in
    let '(success, w, su) := send_cmd_frame cmd op data (world self) (setup self) in
    (success,
     with_trace (trace self ++ [SendCmdFrame cmd op data])
       (with_setup su (with_world w self))).

Definition communicator_wait_not_busy : M unit :=
  fun self =>
    let '(w, su) := wait_not_busy (world self) (setup self) in
    (tt, with_setup su (with_world w self)).

Definition _start_meas : M bool :=
  success <- send_communicator CMD_START_STOP_MEAS OP_START_MEAS ;;
  communicator_wait_not_busy ;;
  ret success.

Definition _stop_meas : M bool :=
  success <- send_communicator CMD_START_STOP_MEAS OP_STOP_MEAS ;;
  communicator_wait_not_busy ;;
  ret success.

Definition stop_meas : M unit :=
  success <- _stop_meas ;;
  if success then
    change_state IDLE ;;
    emit_to_gui (FrameProgress (Some 0) 0)
  else ret tt.

Definition check_nb_meas_reached (idx : Z) : M unit :=
  self <- get ;;
  if negb (is_measuring self) then ret tt
  else
    let burst := get_burst (setup self) in
    if (0 <? burst) && (idx =? burst) then stop_meas else ret tt.

(** ** The decorator [check_not_measuring]

    [func] is the decorated method; the result is [None] when it is not
    run.  A message is shown only when it is neither [None] nor empty. *)
Definition check_not_measuring {A} (force_stop : bool) (func : M A) : M (option A) :=
  self <- get ;;
  decision <-
     (if negb (is_measuring self) then ret (None, true)
      else if force_stop then
        stop_meas ;;
        ret (Some "Measurements have been stopped", true)
      else ret (Some "Please stop measurements first", false)) ;;
  let msg : option string := fst decision in
  let run_func : bool := snd decision in
  match msg with
  | Some m => if String.eqb m "" then ret tt
              else infoMsgBox "Measurements still running!" m
  | None => ret tt
  end ;;
  if run_func then r <- func ;; ret (Some r) else ret None.

(** ** Connection with the device *)

Definition _connect_interface (port : string) : M bool :=
  fun self =>
    let '(success, w) := interface_open port (world self) in
    (success, with_world w self).

Definition _disconnect_interface : M bool :=
  fun self =>
    let '(success, w) := interface_close (world self) in
    (success, with_world w self).

(** The text Python's f-string gives for a name that may be [None]. *)
Definition py_str (name : option string) : string :=
  match name with Some n => n | None => "None" end.

Definition dquote : string := String (ascii_of_nat 34) EmptyString.

Definition _get_sciospec_port (device_name : option string) : M (option string) :=
  self <- get ;;
  if decide (sciospec_devices self = ∅) then
    warningMsgBox "No Sciospec devices - DETECTED"
      "Please refresh the list of availables device first and retry!" ;;
    ret None
  else
    match device_name ≫= (fun n => sciospec_devices self !! n) with
    | None =>
        errorMsgBox "Sciospec device - NOT FOUND "
          (String.append "Please reconnect your device "
             (String.append dquote (String.append (py_str device_name) dquote))) ;;
        ret None
    | Some port => ret (Some port)
    end.

(** [set_device_name] before decoration.  [name if port else NONE_DEVICE]
    tests the truth value of [port]: [None] and the empty string are
    false; a missing [name] then gives [NONE_DEVICE] as well. *)
Definition set_device_name_body (name : option string) : M unit :=
  port <- _get_sciospec_port name ;;
  let truthy := match port with
                | Some p => negb (String.eqb p "")
                | None => false
                end in
  modify (with_device_name
            (if truthy then match name with Some n => n | None => NONE_DEVICE end
             else NONE_DEVICE)).

Definition set_device_name (name : option string) : M (option unit) :=
  check_not_measuring false (set_device_name_body name).

(** ** Setup of the device (declared before their callers) *)

Definition get_device_infos_body : M unit :=
  send_communicator CMD_GET_DEVICE_INFOS OP_NULL ;;
  communicator_wait_not_busy ;;
  self <- get ;;
  emit_to_gui (DevSetup (setup self)).

Definition get_device_infos : M (option unit) :=
  check_not_measuring false get_device_infos_body.

Definition get_setup_body : M unit :=
  send_communicator CMD_GET_MEAS_SETUP OP_EXC_AMPLITUDE ;;
  send_communicator CMD_GET_MEAS_SETUP OP_BURST_COUNT ;;
  send_communicator CMD_GET_MEAS_SETUP OP_FRAME_RATE ;;
  send_communicator CMD_GET_MEAS_SETUP OP_EXC_FREQUENCIES ;;
  send_communicator CMD_GET_MEAS_SETUP OP_EXC_PATTERN ;;
  send_communicator CMD_GET_OUTPUT_CONFIG OP_EXC_STAMP ;;
  send_communicator CMD_GET_OUTPUT_CONFIG OP_CURRENT_STAMP ;;
  send_communicator CMD_GET_OUTPUT_CONFIG OP_TIME_STAMP ;;
  send_communicator CMD_GET_ETHERNET_CONFIG OP_IP_ADRESS ;;
  send_communicator CMD_GET_ETHERNET_CONFIG OP_MAC_ADRESS ;;
  send_communicator CMD_GET_ETHERNET_CONFIG OP_DHCP ;;
  communicator_wait_not_busy ;;
  self <- get ;;
  emit_to_gui (DevSetup (setup self)).

Definition get_setup : M (option unit) :=
  check_not_measuring false get_setup_body.

(** One turn of the loop of [set_setup]. *)
Definition set_setup_row (idx : nat) : M unit :=
  modify (fun self => with_setup (set_exc_pattern_idx idx (setup self)) self) ;;
  send_communicator CMD_SET_MEAS_SETUP OP_EXC_PATTERN ;;
  ret tt.

Definition set_setup_body : M unit :=
  send_communicator CMD_SET_OUTPUT_CONFIG OP_EXC_STAMP ;;
  send_communicator CMD_SET_OUTPUT_CONFIG OP_CURRENT_STAMP ;;
  send_communicator CMD_SET_OUTPUT_CONFIG OP_TIME_STAMP ;;
  send_communicator CMD_SET_ETHERNET_CONFIG OP_DHCP ;;
  send_communicator CMD_SET_MEAS_SETUP OP_RESET_SETUP ;;
  send_communicator CMD_SET_MEAS_SETUP OP_EXC_AMPLITUDE ;;
  send_communicator CMD_SET_MEAS_SETUP OP_BURST_COUNT ;;
  send_communicator CMD_SET_MEAS_SETUP OP_FRAME_RATE ;;
  send_communicator CMD_SET_MEAS_SETUP OP_EXC_FREQUENCIES ;;
  self <- get ;;
  for_each (seq 0 (length (get_exc_pattern (setup self)))) set_setup_row ;;
  communicator_wait_not_busy ;;
  get_setup ;;
  ret tt.

Definition set_setup : M (option unit) :=
  check_not_measuring false set_setup_body.

(** ** Scan of the ports *)

Definition _check_is_sciospec_dev (port : string) : M (option string) :=
  self <- get ;;
  let tmp_sn := get_sn (setup self) in
  _connect_interface port ;;
  _stop_meas ;;
  get_device_infos ;;
  self <- get ;;
  let device_name := build_sciospec_device_name port (setup self) in
  _disconnect_interface ;;
  modify (fun self => with_setup (set_sn tmp_sn (setup self)) self) ;;
  ret device_name.

(** One turn of the loop of [get_devices]. *)
Definition get_devices_port (port : string) : M unit :=
  device_name <- _check_is_sciospec_dev port ;;
  match device_name with
  | Some name =>
      modify (fun self =>
                with_device_name name
                  (with_sciospec_devices (<[name := port]> (sciospec_devices self)) self))
  | None => ret tt
  end.

Definition get_devices_body : M (gmap string string) :=
  fun self =>
    let '(ports, w) := get_ports_available (world self) in
    (modify (with_sciospec_devices ∅) ;;
     for_each ports get_devices_port ;;
     self <- get ;;
     emit_to_gui (DevAvailables (sciospec_devices self)) ;;
     ret (sciospec_devices self)) (with_world w self).

Definition get_devices : M (option (gmap string string)) :=
  check_not_measuring false get_devices_body.

Definition connect_device_body : M bool :=
  self <- get ;;
  port <- _get_sciospec_port (Some (device_name self)) ;;
  match port with
  | None => ret false
  | Some port =>
      success <- _connect_interface port ;;
      (if success then get_device_infos ;; ret tt else ret tt) ;;
      modify (fun self =>
                with_device_name
                  (if success then device_name self else NONE_DEVICE) self) ;;
      emit_dev_status ;;
      ret success
  end.

Definition connect_device : M (option bool) :=
  check_not_measuring false connect_device_body.

Definition disconnect_device_body : M unit :=
  self <- get ;;
  if negb (is_connected self) then ret tt
  else
    success <- _disconnect_interface ;;
    (if success then
       modify (fun self =>
                 with_world (interface_reinit (world self))
                   (with_setup (setup_reinit (setup self)) self))
     else ret tt) ;;
    modify (fun self =>
              with_device_name
                (if success then NONE_DEVICE else device_name self) self) ;;
    emit_dev_status ;;
    get_devices ;;
    ret tt.

Definition disconnect_device : M (option unit) :=
  check_not_measuring false disconnect_device_body.

Definition software_reset_body : M unit :=
  send_communicator CMD_SOFT_RESET OP_NULL ;;
  communicator_wait_not_busy ;;
  emit (Sleep 10) ;;
  disconnect_device ;;
  infoMsgBox "Device reset " "Reset done".

Definition software_reset : M (option unit) :=
  check_not_measuring false software_reset_body.

(** ** Measurements with the device *)

Definition start_meas_body : M bool :=
  success <- _start_meas ;;
  (if success then
     change_state MEASURING ;;
     emit_to_gui (FrameInfo "")
   else ret tt) ;;
  ret success.

Definition start_meas : M (option bool) :=
  check_not_measuring false start_meas_body.

Definition resume_meas_body : M bool :=
  success <- _start_meas ;;
  (if success then change_state MEASURING else ret tt) ;;
  ret success.

Definition resume_meas : M (option bool) :=
  check_not_measuring false resume_meas_body.

Definition pause_meas : M unit :=
  success <- _stop_meas ;;
  if success then
    change_state PAUSED ;;
    dataset_init_for_pause ;;
    emit_to_gui (FrameProgress None 0)
  else ret tt.

Definition start_paused_resume_meas : M unit :=
  self <- get ;;
  if is_idle self then
    dataset_init_for_start ;;
    start_meas ;;
    ret tt
  else if is_measuring self then pause_meas
  else if is_paused self then resume_meas ;; ret tt
  else ret tt.

End Device.

Arguments SciospecEITDevice : clear implicits.
Arguments Effect : clear implicits.
Arguments EventDataClass : clear implicits.
Arguments DatasetMsg : clear implicits.
Arguments M {Setup World} A.

(** ** A simulated bench

    A small setup store and a scripted link on which the methods run.  The
    link answers every command with [send_ok] and every open and close
    with [open_ok] and [close_ok]; the reply to [CMD_GET_DEVICE_INFOS]
    stores the serial number [device_sn] of the device behind the port. *)
Module Sim.

Record setup := mkSetup {
  sn : list byte;
  burst : Z;
  exc_pattern : list (list Z);
  exc_pattern_idx : nat
}.

Record link := mkLink {
  ports : list string;
  open_ok : bool;
  close_ok : bool;
  send_ok : bool;
  connected : bool;
  device_sn : list byte
}.

#[global] Instance store : SetupStore setup := {|
  get_sn := sn;
  set_sn v s := mkSetup v (burst s) (exc_pattern s) (exc_pattern_idx s);
  get_burst := burst;
  get_exc_pattern := exc_pattern;
  set_exc_pattern_idx i s := mkSetup (sn s) (burst s) (exc_pattern s) i;
  get_data cmd op s :=
    match op with
    | OP_EXC_PATTERN =>
        map (fun z => default Byte.x00 (Byte.of_N (Z.to_N z)))
            (nth (exc_pattern_idx s) (exc_pattern s) [])
    | _ => []
    end;
  build_sciospec_device_name port s :=
    match sn s with
    | [] => None
    | _ => Some (String.append "Sciospec on " port)
    end;
  setup_reinit s := mkSetup [] 0 [] 0%nat
|}.

#[global] Instance hardware : Hardware setup link := {|
  get_ports_available w := (ports w, w);
  interface_open port w :=
    (open_ok w,
     mkLink (ports w) (open_ok w) (close_ok w) (send_ok w)
            (open_ok w || connected w) (device_sn w));
  interface_close w :=
    (close_ok w,
     mkLink (ports w) (open_ok w) (close_ok w) (send_ok w)
            (negb (close_ok w) && connected w) (device_sn w));
  interface_reinit w := w;
  interface_is_connected := connected;
  send_cmd_frame cmd op data w s :=
    (send_ok w, w,
     match cmd with
     | CMD_GET_DEVICE_INFOS =>
         if send_ok w then mkSetup (device_sn w) (burst s) (exc_pattern s) (exc_pattern_idx s)
         else s
     | _ => s
     end);
  wait_not_busy w s := (w, s);
  changed_fires old new := negb (MeasuringStates_eqb old new)
|}.

Definition bench_setup : setup :=
  mkSetup [Byte.x01; Byte.x02] 3 [[1; 2]; [2; 3]; [3; 4]] 0%nat.

Definition good_link : link :=
  mkLink ["COM3"] true true true false [Byte.x0a; Byte.x0b].

Definition dead_link : link :=
  mkLink ["COM3"] false false false false [].

(** A device in a given state, on a given link. *)
Definition device (w : link) (st : MeasuringStates) : SciospecEITDevice setup link :=
  mkDevice 32 {["DevA" := "COM3"]} "DevA" st bench_setup w [].


(** A link that is up on a port already claimed: a further open fails and
    the interface stays connected. *)
Definition claimed_link : link :=
  mkLink ["COM3"] false true true true [Byte.x0a; Byte.x0b].

Definition stray_device : SciospecEITDevice setup link :=
  mkDevice 32 {["DevA" := "COM3"]} "DevB" IDLE bench_setup good_link [].

End Sim.

(** * The update events of the GUI ([eit_app/app/update_event.py]) *)

Module UpdateEvent.

(** ** Python values and objects *)

(** The values held by the attributes of an event.  [PyRef] stands for any
    other object (the application window, a setup, a dict), known by its
    identity and by whether it can be hashed. *)
Inductive PyValue :=
| PyNone
| PyBool (b : bool)
| PyInt (z : Z)
| PyStr (s : string)
| PyRef (id : positive) (hashable : bool).

(** An object as [post_event_data] sees it: the two tests of its class and
    its [__dict__]. *)
Record PyObject := mkObject {
  is_dataclass_instance : bool;
  is_EventDataClass : bool;
  attrs : gmap string PyValue
}.

(** ** The catalog of update functions *)

Inductive UpdateFunc :=
| update_available_devices
| update_device_status
| update_device_setup
| update_live_status
| update_replay_status
| update_imaging_inputs_fields
| update_eitdata_plots_options
| update_progress_acquired_frame
| update_frame_info
| update_autosave_options
| update_dataset_loaded.

Definition __name__ (f : UpdateFunc) : string :=
  match f with
  | update_available_devices => "update_available_devices"
  | update_device_status => "update_device_status"
  | update_device_setup => "update_device_setup"
  | update_live_status => "update_live_status"
  | update_replay_status => "update_replay_status"
  | update_imaging_inputs_fields => "update_imaging_inputs_fields"
  | update_eitdata_plots_options => "update_eitdata_plots_options"
  | update_progress_acquired_frame => "update_progress_acquired_frame"
  | update_frame_info => "update_frame_info"
  | update_autosave_options => "update_autosave_options"
  | update_dataset_loaded => "update_dataset_loaded"
  end.

(** The names of the parameters in the [def] of each function. *)
Definition parameters (f : UpdateFunc) : list string :=
  match f with
  | update_available_devices => ["app"; "device"]
  | update_device_status => ["app"; "connected"; "status_prompt"]
  | update_device_setup => ["app"; "setup"; "set_freq_max_enable"; "error"]
  | update_live_status => ["app"; "live_meas"]
  | update_replay_status => ["app"; "status"]
  | update_imaging_inputs_fields => ["app"; "imaging"]
  | update_eitdata_plots_options => ["app"]
  | update_progress_acquired_frame => ["app"; "idx_frame"; "progression"]
  | update_frame_info => ["app"; "info"]
  | update_autosave_options => ["app"]
  | update_dataset_loaded => ["app"; "dataset_dir"; "nb_loaded_frame"]
  end.

Definition add_func_to_catalog (func : UpdateFunc)
    (catalog : gmap string UpdateFunc) : gmap string UpdateFunc :=
  <[__name__ func := func]> catalog.

(** [UPDATE_EVENTS] once the module is loaded: the calls of
    [add_func_to_catalog] in the order of the file. *)
Definition UPDATE_EVENTS : gmap string UpdateFunc :=
  add_func_to_catalog update_dataset_loaded
    (add_func_to_catalog update_autosave_options
      (add_func_to_catalog update_frame_info
        (add_func_to_catalog update_progress_acquired_frame
          (add_func_to_catalog update_eitdata_plots_options
            (add_func_to_catalog update_imaging_inputs_fields
              (add_func_to_catalog update_replay_status
                (add_func_to_catalog update_live_status
                  (add_func_to_catalog update_device_setup
                    (add_func_to_catalog update_device_status
                      (add_func_to_catalog update_available_devices ∅)))))))))).

(** ** The event dataclasses *)

Inductive EventClass :=
| DevAvailables | DevStatus | DevSetup | LiveStatus | ReplayStatus
| ImagingInputs | EITdataPlotOptions | FrameProgress | FrameInfo
| AutosaveOptions | MeasDatasetLoaded.

(** The fields of each dataclass, [func] apart. *)
Definition fields (cls : EventClass) : list string :=
  match cls with
  | DevAvailables => ["device"]
  | DevStatus => ["connected"; "status_prompt"]
  | DevSetup => ["setup"; "set_freq_max_enable"; "error"]
  | LiveStatus => ["live_meas"]
  | ReplayStatus => ["status"]
  | ImagingInputs => ["imaging"]
  | EITdataPlotOptions => []
  | FrameProgress => ["idx_frame"; "progression"]
  | FrameInfo => ["info"]
  | AutosaveOptions => []
  | MeasDatasetLoaded => ["dataset_dir"; "nb_loaded_frame"]
  end.

(** The default of the field [func] of each dataclass. *)
Definition func_default (cls : EventClass) : string :=
  match cls with
  | DevAvailables => __name__ update_available_devices
  | DevStatus => __name__ update_device_status
  | DevSetup => __name__ update_device_setup
  | LiveStatus => __name__ update_live_status
  | ReplayStatus => __name__ update_replay_status
  | ImagingInputs => __name__ update_imaging_inputs_fields
  | EITdataPlotOptions => __name__ update_eitdata_plots_options
  | FrameProgress => __name__ update_progress_acquired_frame
  | FrameInfo => __name__ update_frame_info
  | AutosaveOptions => __name__ update_autosave_options
  | MeasDatasetLoaded => __name__ update_dataset_loaded
  end.

(** A fresh instance of a dataclass, every field holding the value given
    for it (by the caller or by default) and [func] its default. *)
Definition new_event (cls : EventClass) (value : string -> PyValue) : PyObject :=
  mkObject true true
    (<["func" := PyStr (func_default cls)]>
       (list_to_map (map (fun f => (f, value f)) (fields cls)))).

(** ** The agent *)

Record EventsAgent := mkAgent {
  app : PyValue;
  events : gmap string UpdateFunc
}.

(** What [post_event_data] comes to: it returns at once, it calls an
    update function with keyword arguments (and returns or raises what
    that call does), or it raises. *)
Inductive Outcome :=
| Ignored
| Called (f : UpdateFunc) (kwargs : gmap string PyValue)
| KeyError (key : PyValue)
| TypeError.

(** [_mk_dict]: [data.__dict__] is the dictionary of the object itself,
    so the key is added to the object. *)
Definition _mk_dict (self : EventsAgent) (data : PyObject) : PyObject :=
  mkObject (is_dataclass_instance data) (is_EventDataClass data)
           (<["app" := app self]> (attrs data)).

(** The subscript [self.events[func]] on a dictionary keyed by strings. *)
Definition events_getitem (self : EventsAgent) (func : PyValue) : UpdateFunc + Outcome :=
  match func with
  | PyStr name =>
      match events self !! name with
      | Some f => inl f
      | None => inr (KeyError func)
      end
  | PyRef _ false => inr TypeError
  | _ => inr (KeyError func)
  end.

(** The outcome, and the object that was posted as it is afterwards. *)
Definition post_event_data (self : EventsAgent) (data : PyObject) : Outcome * PyObject :=
  if negb (is_dataclass_instance data) || negb (is_EventDataClass data) then
    (Ignored, data)
  else
    let data := _mk_dict self data in
    match attrs data !! "func" with
    | None => (KeyError (PyStr "func"), data)
    | Some func =>
        let data := mkObject (is_dataclass_instance data) (is_EventDataClass data)
                             (delete "func" (attrs data)) in
        match events_getitem self func with
        | inl f => (Called f (attrs data), data)
        | inr raised => (raised, data)
        end
    end.

(** An agent on the catalog, and values to post. *)
Definition window : PyValue := PyRef 1 true.

Definition agent : EventsAgent := mkAgent window UPDATE_EVENTS.

Definition no_value : string -> PyValue := fun _ => PyNone.

End UpdateEvent.

(** * The update functions on the widgets ([update_event.py]) *)

Module Gui.

Record Widget := mkWidget {
  enabled : bool;
  checked : bool;
  text : string
}.

(** The window, by the names of its widgets. *)
Definition Ui_MainWindow : Type := string -> Widget.

Definition on_widget (name : string) (f : Widget -> Widget) (ui : Ui_MainWindow)
    : Ui_MainWindow :=
  fun n => if String.eqb n name then f (ui n) else ui n.

Definition setEnabled (name : string) (b : bool) : Ui_MainWindow -> Ui_MainWindow :=
  on_widget name (fun w => mkWidget b (checked w) (text w)).
Definition setChecked (name : string) (b : bool) : Ui_MainWindow -> Ui_MainWindow :=
  on_widget name (fun w => mkWidget (enabled w) b (text w)).
Definition setText (name : string) (t : string) : Ui_MainWindow -> Ui_MainWindow :=
  on_widget name (fun w => mkWidget (enabled w) (checked w) t).
Definition isChecked (name : string) (ui : Ui_MainWindow) : bool := checked (ui name).

(** The three [isinstance] tests made on the imaging type. *)
Record Imaging := mkImaging {
  isAbsoluteImaging : bool;
  isTimeDifferenceImaging : bool;
  isFrequenceDifferenceImaging : bool
}.

(** The dictionaries [meas_0], [meas_1] and [ref]. *)
Record FieldSetting := mkSetting { show : bool; lab_text : string }.

Definition update_imaging_inputs_fields (app : Ui_MainWindow) (imaging : Imaging)
    : Ui_MainWindow :=
  let meas_0 := mkSetting true "Meas. Frequency" in
  let meas_1 := mkSetting false "Meas. Frequency" in
  let ref := mkSetting false "Reference frame #" in
  let '(meas_0, meas_1, ref) :=
    if isAbsoluteImaging imaging then (meas_0, meas_1, ref)
    else if isTimeDifferenceImaging imaging then
      (meas_0, meas_1, mkSetting true "Reference frame #")
    else if isFrequenceDifferenceImaging imaging then
      (mkSetting true "Ref. Frequence", mkSetting true "Meas. Frequency", ref)
    else (meas_0, meas_1, ref) in
  let app := setEnabled "cB_ref_frame_idx" (show ref) app in
  let app := setEnabled "lab_ref_frame_idx" (show ref) app in
  let app := setText "lab_freq_meas_0" (lab_text ref) app in
  let app := setEnabled "cB_freq_meas_0" (show meas_0) app in
  let app := setEnabled "lab_freq_meas_0" (show meas_0) app in
  let app := setText "lab_freq_meas_0" (lab_text meas_0) app in
  let app := setEnabled "cB_freq_meas_1" (show meas_1) app in
  let app := setEnabled "lab_freq_meas_1" (show meas_1) app in
  let app := setText "lab_freq_meas_1" (lab_text meas_1) app in
  app.

Definition update_autosave_options (app : Ui_MainWindow) : Ui_MainWindow :=
  let app := setEnabled "lE_meas_dataset_dir" (isChecked "chB_dataset_autosave" app) app in
  let app := setEnabled "chB_dataset_save_img" (isChecked "chB_dataset_autosave" app) app in
  let app := setEnabled "chB_load_after_meas" (isChecked "chB_dataset_autosave" app) app in
  let app := setChecked "chB_dataset_save_img"
               (isChecked "chB_dataset_autosave" app &&
                isChecked "chB_dataset_save_img" app) app in
  let app := setChecked "chB_load_after_meas"
               (isChecked "chB_dataset_autosave" app &&
                isChecked "chB_load_after_meas" app) app in
  app.

(** A window to run the functions on. *)
Definition blank : Ui_MainWindow := fun _ => mkWidget false true "".

End Gui.

(** * Properties *)

Local Open Scope list_scope.

Section Properties.

Context {Setup World : Type} `{!SetupStore Setup} `{!Hardware Setup World}.

Abbreviation Device := (SciospecEITDevice Setup World).
Abbreviation Eff := (Effect Setup).

(** The notifications [change_state] causes when going from [old] to
    [new]: those of [emit_meas_status], when the signal fires. *)
Definition changed_events (old new : MeasuringStates) : list Eff :=
  if changed_fires old new then
    [ToGui (MeasuringStatus new);
     ToCaptureDev (MeasuringStates_eqb new MEASURING || MeasuringStates_eqb new PAUSED)]
  else [].

(** The frame [send_communicator] hands over in state [s]. *)
Definition frame (cmd : SciospecCmd) (op : SciospecOption) (s : Device) : Eff :=
  SendCmdFrame cmd op (get_data cmd op (setup s)).

(** What a rejected call leaves behind: the message box alone. *)
Definition rejected (s : Device) : Device :=
  with_trace
    (trace s ++ [InfoMsgBox "Measurements still running!" "Please stop measurements first"]) s.

(** The frame index the GUI shows after the notifications of a trace: the
    last [idx_frame] that was posted, [FrameProgress(None, _)] leaving it
    as it is. *)
Fixpoint last_idx_frame (t : list Eff) (current : option Z) : option Z :=
  match t with
  | [] => current
  | ToGui (FrameProgress (Some idx) _) :: t' => last_idx_frame t' (Some idx)
  | _ :: t' => last_idx_frame t' current
  end.

Definition is_frame_info (e : Eff) : bool :=
  match e with ToGui (FrameInfo _) => true | _ => false end.

Definition is_frame_progress (e : Eff) : bool :=
  match e with ToGui (FrameProgress _ _) => true | _ => false end.

(** The commands and options of the frames of a trace, in order. *)
Fixpoint sent (t : list Eff) : list (SciospecCmd * SciospecOption) :=
  match t with
  | [] => []
  | SendCmdFrame cmd op _ :: t' => (cmd, op) :: sent t'
  | _ :: t' => sent t'
  end.

(** The signals fired to the collaborators, without the frames and the
    message boxes. *)
Definition is_signal (e : Eff) : bool :=
  match e with
  | ToGui _ | ToCaptureDev _ | ToDataset _ => true
  | _ => false
  end.

Definition signals (t : list Eff) : list Eff := List.filter is_signal t.

(** The life-cycle state and the signals fired so far are those of [s]. *)
Definition unchanged (s s' : Device) : Prop :=
  meas_status s' = meas_status s /\ signals (trace s') = signals (trace s).

(** A run of sends, one after the other, as [set_setup] and [get_setup]
    have them. *)
Definition send_all (l : list (SciospecCmd * SciospecOption)) : M unit :=
  for_each l (fun co => bind (send_communicator (fst co) (snd co)) (fun _ => ret tt)).

(** The sends of [set_setup] before its loop. *)
Definition set_setup_order : list (SciospecCmd * SciospecOption) :=
  [(CMD_SET_OUTPUT_CONFIG, OP_EXC_STAMP);
   (CMD_SET_OUTPUT_CONFIG, OP_CURRENT_STAMP);
   (CMD_SET_OUTPUT_CONFIG, OP_TIME_STAMP);
   (CMD_SET_ETHERNET_CONFIG, OP_DHCP);
   (CMD_SET_MEAS_SETUP, OP_RESET_SETUP);
   (CMD_SET_MEAS_SETUP, OP_EXC_AMPLITUDE);
   (CMD_SET_MEAS_SETUP, OP_BURST_COUNT);
   (CMD_SET_MEAS_SETUP, OP_FRAME_RATE);
   (CMD_SET_MEAS_SETUP, OP_EXC_FREQUENCIES)].

(** The sends of [get_setup]. *)
Definition get_setup_order : list (SciospecCmd * SciospecOption) :=
  [(CMD_GET_MEAS_SETUP, OP_EXC_AMPLITUDE);
   (CMD_GET_MEAS_SETUP, OP_BURST_COUNT);
   (CMD_GET_MEAS_SETUP, OP_FRAME_RATE);
   (CMD_GET_MEAS_SETUP, OP_EXC_FREQUENCIES);
   (CMD_GET_MEAS_SETUP, OP_EXC_PATTERN);
   (CMD_GET_OUTPUT_CONFIG, OP_EXC_STAMP);
   (CMD_GET_OUTPUT_CONFIG, OP_CURRENT_STAMP);
   (CMD_GET_OUTPUT_CONFIG, OP_TIME_STAMP);
   (CMD_GET_ETHERNET_CONFIG, OP_IP_ADRESS);
   (CMD_GET_ETHERNET_CONFIG, OP_MAC_ADRESS);
   (CMD_GET_ETHERNET_CONFIG, OP_DHCP)].



(** ** Relations between the device before and after a call *)

(** [m] leaves every device in relation [R] with what it was. *)
Definition preserves {A} (R : Device -> Device -> Prop) (m : M A) : Prop :=
  forall s, R s (snd (m s)).

Definition same_status (s s' : Device) : Prop :=
  meas_status s' = meas_status s.

(** The selected name and the list of devices are those of [s]. *)
Definition same_selection (s s' : Device) : Prop :=
  device_name s' = device_name s /\ sciospec_devices s' = sciospec_devices s.

Definition trace_grows (s s' : Device) : Prop :=
  exists added, trace s' = trace s ++ added.

(** Every entry of the list holds one of [ports], and the selected name
    is [name0] or an entry of the list. *)
Definition scanned (ports : list string) (name0 : string) (s : Device) : Prop :=
  (forall name port, sciospec_devices s !! name = Some port -> In port ports) /\
  (device_name s = name0 \/ is_Some (sciospec_devices s !! device_name s)).

(** ** The monad and the primitive calls *)

Lemma bind_eq {A B} (m : M A) (k : A -> M B) (s : Device) :
  bind m k s = k (fst (m s)) (snd (m s)).
Proof. unfold bind. destruct (m s); reflexivity. Qed.

Lemma bind_ignore {A B} (m : M A) (k : M B) (s : Device) :
  bind m (fun _ => k) s = k (snd (m s)).
Proof. unfold bind. destruct (m s); reflexivity. Qed.

Lemma send_communicator_trace cmd op (s : Device) :
  trace (snd (send_communicator cmd op s)) = trace s ++ [frame cmd op s].
Proof.
  unfold send_communicator, frame.
  destruct (send_cmd_frame _ _ _ _ _) as [[ok w] su]; reflexivity.
Qed.

Lemma send_communicator_ctrl cmd op (s : Device) :
  let s' := snd (send_communicator cmd op s) in
  meas_status s' = meas_status s /\ device_name s' = device_name s /\
  sciospec_devices s' = sciospec_devices s.
Proof.
  unfold send_communicator.
  destruct (send_cmd_frame _ _ _ _ _) as [[ok w] su]; cbn; auto.
Qed.

Lemma wait_not_busy_ctrl (s : Device) :
  let s' := snd (communicator_wait_not_busy s) in
  meas_status s' = meas_status s /\ device_name s' = device_name s /\
  sciospec_devices s' = sciospec_devices s /\ trace s' = trace s.
Proof.
  unfold communicator_wait_not_busy.
  destruct (wait_not_busy _ _) as [w su]; cbn; auto.
Qed.

(** [_start_meas] and [_stop_meas]: one frame, nothing else of the
    controller changes. *)
Lemma send_and_wait_spec cmd op (s : Device) :
  let r := bind (send_communicator cmd op)
             (fun success => bind communicator_wait_not_busy (fun _ => ret success)) s in
  fst r = fst (send_communicator cmd op s) /\
  meas_status (snd r) = meas_status s /\ device_name (snd r) = device_name s /\
  sciospec_devices (snd r) = sciospec_devices s /\
  trace (snd r) = trace s ++ [frame cmd op s].
Proof.
  cbv zeta. rewrite !bind_eq. cbn [ret fst snd].
  destruct (wait_not_busy_ctrl (snd (send_communicator cmd op s))) as (H1 & H2 & H3 & H4).
  destruct (send_communicator_ctrl cmd op s) as (G1 & G2 & G3).
  rewrite H1, H2, H3, H4, G1, G2, G3, send_communicator_trace. auto.
Qed.

Lemma _stop_meas_spec (s : Device) :
  meas_status (snd (_stop_meas s)) = meas_status s /\
  device_name (snd (_stop_meas s)) = device_name s /\
  sciospec_devices (snd (_stop_meas s)) = sciospec_devices s /\
  trace (snd (_stop_meas s)) = trace s ++ [frame CMD_START_STOP_MEAS OP_STOP_MEAS s].
Proof. apply (send_and_wait_spec CMD_START_STOP_MEAS OP_STOP_MEAS s). Qed.

Lemma _start_meas_spec (s : Device) :
  meas_status (snd (_start_meas s)) = meas_status s /\
  device_name (snd (_start_meas s)) = device_name s /\
  sciospec_devices (snd (_start_meas s)) = sciospec_devices s /\
  trace (snd (_start_meas s)) = trace s ++ [frame CMD_START_STOP_MEAS OP_START_MEAS s].
Proof. apply (send_and_wait_spec CMD_START_STOP_MEAS OP_START_MEAS s). Qed.

(** [change_state]: the new state, and the notifications of the signal. *)
Lemma change_state_spec (new : MeasuringStates) (s : Device) :
  let s' := snd (change_state new s) in
  meas_status s' = new /\ device_name s' = device_name s /\
  sciospec_devices s' = sciospec_devices s /\
  trace s' = trace s ++ changed_events (meas_status s) new.
Proof.
  unfold change_state, changed_events. rewrite !bind_eq. cbn [get modify fst snd].
  destruct (changed_fires (meas_status s) new); cbn.
  - unfold is_measuring, is_paused; cbn. rewrite <- app_assoc. auto.
  - rewrite app_nil_r. auto.
Qed.

(** ** The four transitions *)

Lemma stop_meas_spec (s : Device) :
  let ok := fst (_stop_meas s) in
  let s' := snd (stop_meas s) in
  meas_status s' = (if ok then IDLE else meas_status s) /\
  device_name s' = device_name s /\
  sciospec_devices s' = sciospec_devices s /\
  trace s' = trace s ++ frame CMD_START_STOP_MEAS OP_STOP_MEAS s ::
             (if ok then changed_events (meas_status s) IDLE ++
                         [ToGui (FrameProgress (Some 0) 0)]
              else []).
Proof.
  cbv zeta. unfold stop_meas. rewrite bind_eq.
  destruct (_stop_meas_spec s) as (H1 & H2 & H3 & H4).
  destruct (fst (_stop_meas s)).
  - rewrite bind_eq.
    destruct (change_state_spec IDLE (snd (_stop_meas s))) as (C1 & C2 & C3 & C4).
    cbv zeta in C1, C2, C3, C4. cbn [emit_to_gui emit modify snd with_trace
      meas_status device_name sciospec_devices trace].
    rewrite C1, C2, C3, C4, H1, H2, H3, H4, <- !app_assoc. auto.
  - cbn [ret snd]. auto.
Qed.

Lemma pause_meas_spec (s : Device) :
  let ok := fst (_stop_meas s) in
  let s' := snd (pause_meas s) in
  meas_status s' = (if ok then PAUSED else meas_status s) /\
  trace s' = trace s ++ frame CMD_START_STOP_MEAS OP_STOP_MEAS s ::
             (if ok then changed_events (meas_status s) PAUSED ++
                         [ToDataset reinit_4_pause; ToGui (FrameProgress None 0)]
              else []).
Proof.
  cbv zeta. unfold pause_meas. rewrite bind_eq.
  destruct (_stop_meas_spec s) as (H1 & H2 & H3 & H4).
  destruct (fst (_stop_meas s)).
  - rewrite !bind_eq.
    destruct (change_state_spec PAUSED (snd (_stop_meas s))) as (C1 & C2 & C3 & C4).
    cbv zeta in C1, C2, C3, C4.
    cbn [dataset_init_for_pause emit_to_dataset emit_to_gui emit modify snd
         with_trace meas_status trace].
    rewrite C1, C4, H1, H4, <- !app_assoc. auto.
  - cbn [ret snd]. auto.
Qed.

Lemma start_meas_body_spec (s : Device) :
  let ok := fst (_start_meas s) in
  let r := start_meas_body s in
  fst r = ok /\
  meas_status (snd r) = (if ok then MEASURING else meas_status s) /\
  trace (snd r) = trace s ++ frame CMD_START_STOP_MEAS OP_START_MEAS s ::
                  (if ok then changed_events (meas_status s) MEASURING ++
                              [ToGui (FrameInfo "")]
                   else []).
Proof.
  cbv zeta. unfold start_meas_body. rewrite !bind_eq. cbn [ret fst snd].
  destruct (_start_meas_spec s) as (H1 & H2 & H3 & H4).
  destruct (fst (_start_meas s)).
  - rewrite bind_eq.
    destruct (change_state_spec MEASURING (snd (_start_meas s))) as (C1 & C2 & C3 & C4).
    cbv zeta in C1, C2, C3, C4.
    cbn [emit_to_gui emit modify snd with_trace meas_status trace].
    rewrite C1, C4, H1, H4, <- !app_assoc. auto.
  - cbn [ret snd]. auto.
Qed.

Lemma resume_meas_body_spec (s : Device) :
  let ok := fst (_start_meas s) in
  let r := resume_meas_body s in
  fst r = ok /\
  meas_status (snd r) = (if ok then MEASURING else meas_status s) /\
  trace (snd r) = trace s ++ frame CMD_START_STOP_MEAS OP_START_MEAS s ::
                  (if ok then changed_events (meas_status s) MEASURING else []).
Proof.
  cbv zeta. unfold resume_meas_body. rewrite !bind_eq. cbn [ret fst snd].
  destruct (_start_meas_spec s) as (H1 & H2 & H3 & H4).
  destruct (fst (_start_meas s)).
  - destruct (change_state_spec MEASURING (snd (_start_meas s))) as (C1 & C2 & C3 & C4).
    cbv zeta in C1, C2, C3, C4.
    rewrite C1, C4, H1, H4, <- app_assoc. auto.
  - cbn [ret snd]. auto.
Qed.

(** ** The decorator *)

Lemma check_not_measuring_runs {A} (force_stop : bool) (func : M A) (s : Device) :
  is_measuring s = false ->
  check_not_measuring force_stop func s = (Some (fst (func s)), snd (func s)).
Proof.
  intros Hm. unfold check_not_measuring. rewrite !bind_eq. cbn [get fst snd].
  rewrite Hm. cbn. rewrite bind_eq. reflexivity.
Qed.

Lemma check_not_measuring_rejects {A} (func : M A) (s : Device) :
  is_measuring s = true ->
  check_not_measuring false func s = (None, rejected s).
Proof.
  intros Hm. unfold check_not_measuring. rewrite !bind_eq. cbn [get fst snd].
  rewrite Hm. reflexivity.
Qed.

Lemma check_not_measuring_forced {A} (func : M A) (s : Device) :
  is_measuring s = true ->
  let s1 := snd (infoMsgBox "Measurements still running!"
                   "Measurements have been stopped" (snd (stop_meas s))) in
  check_not_measuring true func s = (Some (fst (func s1)), snd (func s1)).
Proof.
  intros Hm. unfold check_not_measuring. rewrite !bind_eq. cbn [get fst snd].
  rewrite Hm. cbn [negb]. rewrite !bind_eq. cbn [ret fst snd]. cbn.
  rewrite bind_eq. reflexivity.
Qed.

Lemma is_measuring_true (s : Device) : is_measuring s = true <-> meas_status s = MEASURING.
Proof. unfold is_measuring. destruct (meas_status s); cbn; split; congruence. Qed.

Lemma is_measuring_false (s : Device) : is_measuring s = false <-> meas_status s <> MEASURING.
Proof. unfold is_measuring. destruct (meas_status s); cbn; split; congruence. Qed.

Lemma signals_app (t1 t2 : list Eff) : signals (t1 ++ t2) = signals t1 ++ signals t2.
Proof. apply List.filter_app. Qed.

Lemma unchanged_rejected (s : Device) : unchanged s (rejected s).
Proof. unfold unchanged, rejected. cbn. rewrite signals_app. cbn. rewrite app_nil_r. auto. Qed.

(** ** The stop transition *)

(** C5. In the states Measuring and Paused, [stop_meas] hands the Stop
    frame to the communicator; when the send reports success the state
    becomes Idle and the last notification is the progress (0 frames, 0 %);
    the trace grows by exactly the frame, the notifications of the state
    change and that progress. *)
Theorem stop_meas_sends_stop_and_resets (s : Device) :
  meas_status s = MEASURING \/ meas_status s = PAUSED ->
  let ok := fst (_stop_meas s) in
  let s' := snd (stop_meas s) in
  trace s' = trace s ++ frame CMD_START_STOP_MEAS OP_STOP_MEAS s ::
             (if ok then changed_events (meas_status s) IDLE ++
                         [ToGui (FrameProgress (Some 0) 0)]
              else []) /\
  (ok = true ->
   meas_status s' = IDLE /\
   List.last (trace s') (frame CMD_START_STOP_MEAS OP_STOP_MEAS s) =
     ToGui (FrameProgress (Some 0) 0)).
Proof.
  intros _. cbv zeta.
  destruct (stop_meas_spec s) as (H1 & _ & _ & H4). cbv zeta in H1, H4.
  split; [exact H4|]. intros Hok. rewrite Hok in H1, H4. split; [exact H1|].
  rewrite H4.
  change (frame CMD_START_STOP_MEAS OP_STOP_MEAS s ::
          changed_events (meas_status s) IDLE ++ [ToGui (FrameProgress (Some 0) 0)])
    with ((frame CMD_START_STOP_MEAS OP_STOP_MEAS s ::
           changed_events (meas_status s) IDLE) ++ [ToGui (FrameProgress (Some 0) 0)]).
  rewrite app_assoc. apply List.last_last.
Qed.

(** ** Failure of the send *)

(** C9. When the send of the Start command fails, [start_meas] and
    [resume_meas] leave the life-cycle state and the fired signals as they
    were; when the send of the Stop command fails, so do [pause_meas] and
    [stop_meas]: the state changes only on a successful send. *)
Theorem failed_send_changes_nothing (s : Device) :
  (fst (_start_meas s) = false ->
   unchanged s (snd (start_meas s)) /\ unchanged s (snd (resume_meas s))) /\
  (fst (_stop_meas s) = false ->
   unchanged s (snd (pause_meas s)) /\ unchanged s (snd (stop_meas s))).
Proof.
  split; intros Hf.
  - unfold start_meas, resume_meas.
    destruct (is_measuring s) eqn:Hm.
    + rewrite !check_not_measuring_rejects by exact Hm. cbn [snd].
      split; apply unchanged_rejected.
    + rewrite !check_not_measuring_runs by exact Hm. cbn [snd].
      destruct (start_meas_body_spec s) as (_ & A1 & A2).
      destruct (resume_meas_body_spec s) as (_ & B1 & B2).
      cbv zeta in A1, A2, B1, B2. rewrite Hf in A1, A2, B1, B2.
      unfold unchanged. rewrite A1, A2, B1, B2, !signals_app. cbn.
      rewrite app_nil_r. auto.
  - destruct (pause_meas_spec s) as (A1 & A2).
    destruct (stop_meas_spec s) as (B1 & _ & _ & B2).
    cbv zeta in A1, A2, B1, B2. rewrite Hf in A1, A2, B1, B2.
    unfold unchanged. rewrite A1, A2, B1, B2, !signals_app. cbn.
    rewrite app_nil_r. auto.
Qed.

(** ** The burst count *)

(** C2, as the code has it. With a burst count B > 0, a frame index equal
    to B reported while Measuring makes the controller call [stop_meas]:
    the Stop frame is sent and, when that send reports success, the state
    becomes Idle.  With B = 0, or when the state is not Measuring, nothing
    happens at all. *)
Theorem burst_reached_calls_stop (idx : Z) (s : Device) :
  (meas_status s = MEASURING -> 0 < get_burst (setup s) -> idx = get_burst (setup s) ->
   check_nb_meas_reached idx s = stop_meas s /\
   (fst (_stop_meas s) = true ->
    meas_status (snd (check_nb_meas_reached idx s)) = IDLE)) /\
  (get_burst (setup s) = 0 \/ meas_status s <> MEASURING ->
   check_nb_meas_reached idx s = (tt, s)).
Proof.
  unfold check_nb_meas_reached. rewrite bind_eq. cbn [get fst snd]. split.
  - intros Hm Hb Hi. apply is_measuring_true in Hm. rewrite Hm. cbn [negb].
    assert (E : (0 <? get_burst (setup s)) && (idx =? get_burst (setup s)) = true).
    { apply andb_true_intro; split; [apply Z.ltb_lt; exact Hb | apply Z.eqb_eq; exact Hi]. }
    rewrite E. split; [reflexivity|]. intros Hok.
    destruct (stop_meas_spec s) as (H1 & _). cbv zeta in H1. rewrite Hok in H1. exact H1.
  - intros [Hb | Hm].
    + destruct (negb (is_measuring s)); [reflexivity|].
      rewrite Hb. reflexivity.
    + apply is_measuring_false in Hm. rewrite Hm. reflexivity.
Qed.

(** ** Resume against a fresh start *)

(** C6. From Paused, [resume_meas] hands the Start frame to the
    communicator again and none of what it adds to the trace is a
    frame-info notification; from Idle, [start_meas] sends the same frame
    and, its send succeeding, ends with the notification [FrameInfo("")]. *)
Theorem resume_posts_no_frame_info (s : Device) :
  (meas_status s = PAUSED ->
   let added := frame CMD_START_STOP_MEAS OP_START_MEAS s ::
                (if fst (_start_meas s) then changed_events PAUSED MEASURING else []) in
   trace (snd (resume_meas s)) = trace s ++ added /\
   sent added = [(CMD_START_STOP_MEAS, OP_START_MEAS)] /\
   existsb is_frame_info added = false) /\
  (meas_status s = IDLE -> fst (_start_meas s) = true ->
   let added := frame CMD_START_STOP_MEAS OP_START_MEAS s ::
                changed_events IDLE MEASURING ++ [ToGui (FrameInfo "")] in
   trace (snd (start_meas s)) = trace s ++ added /\
   sent added = [(CMD_START_STOP_MEAS, OP_START_MEAS)] /\
   existsb is_frame_info added = true).
Proof.
  split.
  - intros Hp. cbv zeta. unfold resume_meas.
    rewrite check_not_measuring_runs
      by (apply is_measuring_false; rewrite Hp; discriminate).
    cbn [snd]. destruct (resume_meas_body_spec s) as (_ & _ & B2).
    cbv zeta in B2. rewrite Hp in B2. split; [exact B2|].
    unfold changed_events.
    destruct (fst (_start_meas s)); destruct (changed_fires PAUSED MEASURING);
      cbn; auto.
  - intros Hi Hok. cbv zeta. unfold start_meas.
    rewrite check_not_measuring_runs
      by (apply is_measuring_false; rewrite Hi; discriminate).
    cbn [snd]. destruct (start_meas_body_spec s) as (_ & _ & B2).
    cbv zeta in B2. rewrite Hi, Hok in B2. split; [exact B2|].
    unfold changed_events. destruct (changed_fires IDLE MEASURING); cbn; auto.
Qed.

(** ** The guard *)

(** C1, as the code has it. In state Measuring each of the eight guarded
    operations is rejected: the decorated method is not run, the result is
    [None] and the only effect is the message asking to stop the
    measurements.  A decorator built with [force_stop] calls [stop_meas]
    first and then runs the method, in state Idle when the Stop send
    succeeded.  In state Paused the guard lets every method run, in the
    state it was called in. *)
Theorem guard_engages_on_measuring_only :
  (forall (name : option string) (s : Device),
     meas_status s = MEASURING ->
     set_device_name name s = (None, rejected s) /\
     get_devices s = (None, rejected s) /\
     connect_device s = (None, rejected s) /\
     disconnect_device s = (None, rejected s) /\
     get_device_infos s = (None, rejected s) /\
     set_setup s = (None, rejected s) /\
     get_setup s = (None, rejected s) /\
     software_reset s = (None, rejected s)) /\
  (forall (A : Type) (func : M A) (s : Device),
     meas_status s = MEASURING -> fst (_stop_meas s) = true ->
     let s1 := snd (infoMsgBox "Measurements still running!"
                      "Measurements have been stopped" (snd (stop_meas s))) in
     meas_status s1 = IDLE /\
     check_not_measuring true func s = (Some (fst (func s1)), snd (func s1))) /\
  (forall (A : Type) (force_stop : bool) (func : M A) (s : Device),
     meas_status s = PAUSED ->
     check_not_measuring force_stop func s = (Some (fst (func s)), snd (func s))).
Proof.
  split; [|split].
  - intros name s Hm. apply is_measuring_true in Hm.
    unfold set_device_name, get_devices, connect_device, disconnect_device,
      get_device_infos, set_setup, get_setup, software_reset.
    repeat split; apply check_not_measuring_rejects; exact Hm.
  - intros A func s Hm Hok. cbv zeta. split.
    + destruct (stop_meas_spec s) as (H1 & _). cbv zeta in H1.
      rewrite Hok in H1. cbn. exact H1.
    + apply check_not_measuring_forced, is_measuring_true, Hm.
  - intros A force_stop func s Hp. apply check_not_measuring_runs.
    apply is_measuring_false. rewrite Hp. discriminate.
Qed.

(** ** The start / pause / resume button *)

Lemma last_idx_frame_app (t1 t2 : list Eff) (cur : option Z) :
  last_idx_frame (t1 ++ t2) cur = last_idx_frame t2 (last_idx_frame t1 cur).
Proof.
  revert cur. induction t1 as [|e t1 IH]; intros cur; [reflexivity|].
  destruct e as [[ | | | | [idx|] prog | ] | | | | | | | ]; cbn; apply IH.
Qed.

Lemma last_idx_frame_changed_events (old new : MeasuringStates) (cur : option Z) :
  last_idx_frame (changed_events old new) cur = cur.
Proof. unfold changed_events. destruct (changed_fires old new); reflexivity. Qed.

Lemma _start_meas_with_trace (t : list Eff) (s : Device) :
  fst (_start_meas (with_trace t s)) = fst (_start_meas s).
Proof.
  unfold _start_meas. rewrite !bind_eq. cbn [ret fst].
  unfold send_communicator. cbn [with_trace setup world].
  destruct (send_cmd_frame _ _ _ _ _) as [[ok w] su]; reflexivity.
Qed.

Lemma start_paused_resume_meas_idle (s : Device) :
  meas_status s = IDLE ->
  snd (start_paused_resume_meas s) =
  snd (start_meas_body (snd (dataset_init_for_start s))).
Proof.
  intros Hi. unfold start_paused_resume_meas. rewrite bind_eq. cbn [get fst snd].
  unfold is_idle. rewrite Hi. cbn [MeasuringStates_eqb]. rewrite !bind_eq.
  cbn [ret snd]. unfold start_meas. rewrite check_not_measuring_runs; [reflexivity|].
  unfold is_measuring, dataset_init_for_start. cbn. rewrite Hi. reflexivity.
Qed.

Lemma start_paused_resume_meas_measuring (s : Device) :
  meas_status s = MEASURING ->
  start_paused_resume_meas s = pause_meas s.
Proof.
  intros Hm. unfold start_paused_resume_meas. rewrite bind_eq. cbn [get fst snd].
  unfold is_idle, is_measuring. rewrite Hm. reflexivity.
Qed.

Lemma start_paused_resume_meas_paused (s : Device) :
  meas_status s = PAUSED ->
  snd (start_paused_resume_meas s) = snd (resume_meas_body s).
Proof.
  intros Hp. unfold start_paused_resume_meas. rewrite bind_eq. cbn [get fst snd].
  unfold is_idle, is_measuring, is_paused. rewrite Hp. cbn [MeasuringStates_eqb].
  rewrite !bind_eq. cbn [ret snd]. unfold resume_meas.
  rewrite check_not_measuring_runs; [reflexivity|].
  unfold is_measuring. rewrite Hp. reflexivity.
Qed.

(** C3, as the code has it. From Idle, with every send succeeding: the
    first press of the button brings the state to Measuring and posts the
    frame-info reset [FrameInfo("")], and no progress notification; the
    second brings it to Paused and posts [FrameProgress(None, 0)], which
    carries no frame index; the third brings it back to Measuring and posts
    no progress either.  The frame index shown by the GUI is therefore the
    same after the three presses as before them. *)
Theorem start_pause_resume_round_trip (s : Device) :
  meas_status s = IDLE ->
  let s1 := snd (start_paused_resume_meas s) in
  let s2 := snd (start_paused_resume_meas s1) in
  let s3 := snd (start_paused_resume_meas s2) in
  fst (_start_meas s) = true ->
  fst (_stop_meas s1) = true ->
  fst (_start_meas s2) = true ->
  (meas_status s1 = MEASURING /\
   trace s1 = trace s ++ ToDataset (dev_setup (setup s)) ::
              frame CMD_START_STOP_MEAS OP_START_MEAS s ::
              changed_events IDLE MEASURING ++ [ToGui (FrameInfo "")]) /\
  (meas_status s2 = PAUSED /\
   trace s2 = trace s1 ++ frame CMD_START_STOP_MEAS OP_STOP_MEAS s1 ::
              changed_events MEASURING PAUSED ++
              [ToDataset reinit_4_pause; ToGui (FrameProgress None 0)]) /\
  (meas_status s3 = MEASURING /\
   trace s3 = trace s2 ++ frame CMD_START_STOP_MEAS OP_START_MEAS s2 ::
              changed_events PAUSED MEASURING) /\
  (forall cur : option Z,
     last_idx_frame (trace s1) cur = last_idx_frame (trace s) cur /\
     last_idx_frame (trace s3) cur = last_idx_frame (trace s1) cur).
Proof.
  intros Hi s1 s2 s3 Hok1 Hok2 Hok3.
  assert (E1 : meas_status s1 = MEASURING /\
               trace s1 = trace s ++ ToDataset (dev_setup (setup s)) ::
                 frame CMD_START_STOP_MEAS OP_START_MEAS s ::
                 changed_events IDLE MEASURING ++ [ToGui (FrameInfo "")]).
  { subst s1. rewrite start_paused_resume_meas_idle by exact Hi.
    destruct (start_meas_body_spec (snd (dataset_init_for_start s))) as (_ & A1 & A2).
    cbv zeta in A1, A2. unfold dataset_init_for_start in A1, A2 |- *.
    rewrite bind_eq in A1, A2 |- *.
    cbn [get fst snd emit_to_dataset emit modify] in A1, A2 |- *.
    rewrite _start_meas_with_trace, Hok1 in A1, A2.
    split; [exact A1|]. rewrite A2. cbn [with_trace trace meas_status].
    rewrite Hi, <- app_assoc. reflexivity. }
  destruct E1 as [M1 T1].
  assert (E2 : meas_status s2 = PAUSED /\
               trace s2 = trace s1 ++ frame CMD_START_STOP_MEAS OP_STOP_MEAS s1 ::
                 changed_events MEASURING PAUSED ++
                 [ToDataset reinit_4_pause; ToGui (FrameProgress None 0)]).
  { subst s2. rewrite start_paused_resume_meas_measuring by exact M1.
    destruct (pause_meas_spec s1) as (A1 & A2). cbv zeta in A1, A2.
    rewrite Hok2 in A1, A2. rewrite M1 in A2. auto. }
  destruct E2 as [M2 T2].
  assert (E3 : meas_status s3 = MEASURING /\
               trace s3 = trace s2 ++ frame CMD_START_STOP_MEAS OP_START_MEAS s2 ::
                 changed_events PAUSED MEASURING).
  { subst s3. rewrite start_paused_resume_meas_paused by exact M2.
    destruct (resume_meas_body_spec s2) as (_ & A1 & A2). cbv zeta in A1, A2.
    rewrite Hok3 in A1, A2. rewrite M2 in A2. auto. }
  destruct E3 as [M3 T3].
  repeat split; try assumption.
  - rewrite T1, last_idx_frame_app. cbn [last_idx_frame frame].
    rewrite last_idx_frame_app, last_idx_frame_changed_events. reflexivity.
  - rewrite T3, T2, !last_idx_frame_app. cbn [last_idx_frame frame].
    rewrite last_idx_frame_changed_events.
    rewrite last_idx_frame_app, last_idx_frame_changed_events. reflexivity.
Qed.

(** ** Scan of the ports *)




(** ** Connection *)

Lemma _get_sciospec_port_found (name port : string) (s : Device) :
  sciospec_devices s !! name = Some port ->
  _get_sciospec_port (Some name) s = (Some port, s).
Proof.
  intros Hl. unfold _get_sciospec_port. rewrite bind_eq. cbn [get fst snd].
  destruct (decide (sciospec_devices s = ∅)) as [He|_].
  - rewrite He, lookup_empty in Hl. discriminate.
  - cbn. rewrite Hl. reflexivity.
Qed.

Lemma get_device_infos_body_spec (s : Device) :
  let s' := snd (get_device_infos_body s) in
  meas_status s' = meas_status s /\ device_name s' = device_name s /\
  sciospec_devices s' = sciospec_devices s /\
  trace s' = trace s ++ [frame CMD_GET_DEVICE_INFOS OP_NULL s; ToGui (DevSetup (setup s'))].
Proof.
  cbv zeta. unfold get_device_infos_body. rewrite !bind_eq.
  cbn [get emit_to_gui emit modify fst snd].
  destruct (wait_not_busy_ctrl (snd (send_communicator CMD_GET_DEVICE_INFOS OP_NULL s)))
    as (H1 & H2 & H3 & H4).
  destruct (send_communicator_ctrl CMD_GET_DEVICE_INFOS OP_NULL s) as (G1 & G2 & G3).
  cbv zeta in H1, H2, H3, H4, G1, G2, G3.
  cbn [with_trace meas_status device_name sciospec_devices trace setup].
  rewrite H1, H2, H3, H4, G1, G2, G3, send_communicator_trace, <- app_assoc. auto.
Qed.

(** [connect_device] on a device whose name is in the list. *)
Lemma connect_device_found (port : string) (s : Device) :
  meas_status s <> MEASURING ->
  sciospec_devices s !! device_name s = Some port ->
  let ok := fst (interface_open port (world s)) in
  let r := connect_device s in
  fst r = Some ok /\
  meas_status (snd r) = meas_status s /\
  device_name (snd r) = (if ok then device_name s else NONE_DEVICE) /\
  (ok = false -> world (snd r) = snd (interface_open port (world s))) /\
  trace (snd r) =
    trace s ++
    (if ok then [frame CMD_GET_DEVICE_INFOS OP_NULL s; ToGui (DevSetup (setup (snd r)))]
     else []) ++
    [ToGui (DevStatus (is_connected (snd r)) (connect_prompt (snd r)))].
Proof.
  intros Hm Hl. cbv zeta. apply is_measuring_false in Hm.
  unfold connect_device. rewrite check_not_measuring_runs by exact Hm.
  cbn [fst snd]. unfold connect_device_body. rewrite !bind_eq. cbn [get fst snd].
  rewrite (_get_sciospec_port_found _ _ _ Hl). cbn [fst snd].
  rewrite !bind_eq. unfold _connect_interface.
  destruct (interface_open port (world s)) as [ok w] eqn:Eo. cbn [fst snd].
  destruct ok.
  - rewrite !bind_eq. unfold get_device_infos.
    rewrite check_not_measuring_runs by exact Hm. cbn [fst snd ret].
    destruct (get_device_infos_body_spec (with_world w s)) as (H1 & H2 & H3 & H4).
    cbv zeta in H1, H2, H3, H4. cbn [with_world meas_status device_name
      sciospec_devices trace] in H1, H2, H3, H4.
    unfold emit_dev_status. rewrite !bind_eq.
    cbn [get modify emit_to_gui emit ret fst snd with_device_name with_trace
         meas_status device_name trace setup].
    unfold connect_prompt, is_connected.
    cbn [device_name world with_device_name with_trace].
    rewrite H1, H2, H4. unfold frame. cbn [with_world setup].
    rewrite <- !app_assoc.
    repeat split; try reflexivity. discriminate.
  - cbn [ret snd]. unfold emit_dev_status. rewrite !bind_eq.
    cbn [get modify emit_to_gui emit ret fst snd with_device_name with_trace
         with_world meas_status device_name trace setup world].
    unfold connect_prompt, is_connected.
    cbn [device_name world with_device_name with_trace with_world].
    repeat split; reflexivity.
Qed.


(** C10, as the code has it. The prompt is the device name followed by
    " - CONNECTED" in every state of the device, and [emit_dev_status]
    posts it next to whatever the serial interface reports.  When the port
    of the chosen device does not open, [connect_device] returns [False],
    resets the name and posts the status with the prompt
    "None Device - CONNECTED" and the flag of the interface as the failed
    open left it: [False] when the interface then reports no connection,
    [True] when it still reports one. *)
Theorem connect_prompt_whatever_the_link :
  (forall s : Device,
     connect_prompt s = String.append (device_name s) " - CONNECTED" /\
     trace (snd (emit_dev_status s)) =
       trace s ++ [ToGui (DevStatus (interface_is_connected (world s))
                                    (String.append (device_name s) " - CONNECTED"))]) /\
  (forall (port : string) (s : Device),
     meas_status s <> MEASURING ->
     sciospec_devices s !! device_name s = Some port ->
     fst (interface_open port (world s)) = false ->
     let r := connect_device s in
     let flag := interface_is_connected (snd (interface_open port (world s))) in
     fst r = Some false /\
     device_name (snd r) = NONE_DEVICE /\
     trace (snd r) = trace s ++ [ToGui (DevStatus flag "None Device - CONNECTED")] /\
     (flag = false ->
      trace (snd r) = trace s ++ [ToGui (DevStatus false "None Device - CONNECTED")]) /\
     (flag = true ->
      trace (snd r) = trace s ++ [ToGui (DevStatus true "None Device - CONNECTED")])).
Proof.
  split.
  - intros s. split; [reflexivity|].
    unfold emit_dev_status. rewrite bind_eq. reflexivity.
  - intros port s Hm Hl Hopen. cbv zeta.
    destruct (connect_device_found port s Hm Hl) as (R1 & R2 & R3 & R4 & R5).
    cbv zeta in R1, R2, R3, R4, R5. rewrite Hopen in R1, R3, R5.
    specialize (R4 Hopen). unfold connect_prompt, is_connected in R5.
    rewrite R3, R4 in R5. cbn [app] in R5.
    repeat split; try assumption; intros Hflag; rewrite R5, Hflag; reflexivity.
Qed.

(** ** The push of a setup *)

Lemma sent_app (t1 t2 : list Eff) : sent (t1 ++ t2) = sent t1 ++ sent t2.
Proof.
  induction t1 as [|e t1 IH]; [reflexivity|].
  destruct e; cbn; rewrite ?IH; reflexivity.
Qed.




Lemma send_all_nil (s : Device) : send_all [] s = (tt, s).
Proof. reflexivity. Qed.

Lemma send_all_cons cmd op l (s : Device) :
  send_all ((cmd, op) :: l) s = send_all l (snd (send_communicator cmd op s)).
Proof.
  unfold send_all. cbn [for_each fst snd]. rewrite !bind_ignore. reflexivity.
Qed.

(** [get_setup] and [set_setup] as runs of sends. *)
Lemma get_setup_body_eq (s : Device) :
  get_setup_body s =
  bind (send_all get_setup_order)
    (fun _ => bind communicator_wait_not_busy
       (fun _ => bind get (fun self => emit_to_gui (DevSetup (setup self))))) s.
Proof.
  unfold get_setup_body, get_setup_order.
  repeat rewrite bind_ignore. rewrite !send_all_cons, send_all_nil.
  reflexivity.
Qed.

Lemma set_setup_body_eq (s : Device) :
  set_setup_body s =
  bind (send_all set_setup_order)
    (fun _ => bind get (fun self =>
       bind (for_each (seq 0 (length (get_exc_pattern (setup self)))) set_setup_row)
         (fun _ => bind communicator_wait_not_busy
            (fun _ => bind get_setup (fun _ => ret tt))))) s.
Proof.
  unfold set_setup_body, set_setup_order.
  repeat rewrite bind_ignore. rewrite !send_all_cons, send_all_nil.
  reflexivity.
Qed.



(** ** What a call leaves as it was *)

Section Preserves.

Variable R : Device -> Device -> Prop.
Hypothesis R_refl : forall s, R s s.
Hypothesis R_trans : forall s1 s2 s3, R s1 s2 -> R s2 s3 -> R s1 s3.
Hypothesis R_emit : forall s e, R s (with_trace (trace s ++ [e]) s).
Hypothesis R_world : forall s w, R s (with_world w s).
Hypothesis R_setup : forall s su, R s (with_setup su s).

Lemma preserves_ret {A} (a : A) : preserves R (ret a).
Proof. intros s. apply R_refl. Qed.

Lemma preserves_get : preserves R get.
Proof. intros s. apply R_refl. Qed.

Lemma preserves_bind {A B} (m : M A) (k : A -> M B) :
  preserves R m -> (forall a, preserves R (k a)) -> preserves R (bind m k).
Proof.
  intros Hm Hk s. rewrite bind_eq. eapply R_trans; [apply Hm | apply Hk].
Qed.

Lemma preserves_modify (f : Device -> Device) :
  (forall s, R s (f s)) -> preserves R (modify f).
Proof. intros Hf s. apply Hf. Qed.

Lemma preserves_emit (e : Eff) : preserves R (emit e).
Proof. intros s. apply R_emit. Qed.

Lemma preserves_for_each {A} (l : list A) (body : A -> M unit) :
  (forall a, preserves R (body a)) -> preserves R (for_each l body).
Proof.
  intros Hb. induction l as [|a l IH]; cbn [for_each].
  - apply preserves_ret.
  - apply preserves_bind; [apply Hb | intros _; exact IH].
Qed.

Lemma preserves_send_communicator cmd op : preserves R (send_communicator cmd op).
Proof.
  intros s. unfold send_communicator.
  destruct (send_cmd_frame _ _ _ _ _) as [[ok w] su]. cbn [snd].
  eapply R_trans; [apply (R_world s w)|].
  eapply R_trans; [apply (R_setup _ su)|].
  exact (R_emit (with_setup su (with_world w s)) _).
Qed.

Lemma preserves_wait_not_busy : preserves R communicator_wait_not_busy.
Proof.
  intros s. unfold communicator_wait_not_busy.
  destruct (wait_not_busy _ _) as [w su]. cbn [snd].
  eapply R_trans; [apply (R_world s w) | apply R_setup].
Qed.

Lemma preserves__connect_interface port : preserves R (_connect_interface port).
Proof.
  intros s. unfold _connect_interface.
  destruct (interface_open _ _) as [ok w]. apply R_world.
Qed.

Lemma preserves__disconnect_interface : preserves R _disconnect_interface.
Proof.
  intros s. unfold _disconnect_interface.
  destruct (interface_close _) as [ok w]. apply R_world.
Qed.

Lemma preserves__stop_meas : preserves R _stop_meas.
Proof.
  unfold _stop_meas. apply preserves_bind; [apply preserves_send_communicator|].
  intros ok. apply preserves_bind; [apply preserves_wait_not_busy|].
  intros _. apply preserves_ret.
Qed.

(** Without [force_stop] the decorator adds a message box at most. *)
Lemma preserves_check_not_measuring {A} (func : M A) :
  preserves R func -> preserves R (check_not_measuring false func).
Proof.
  intros Hf s. destruct (is_measuring s) eqn:Hm.
  - rewrite check_not_measuring_rejects by exact Hm. apply R_emit.
  - rewrite check_not_measuring_runs by exact Hm. apply Hf.
Qed.

Lemma preserves__get_sciospec_port name : preserves R (_get_sciospec_port name).
Proof.
  unfold _get_sciospec_port. apply preserves_bind; [apply preserves_get|].
  intros self. destruct (decide _).
  - apply preserves_bind; [apply preserves_emit | intros _; apply preserves_ret].
  - destruct (name ≫= _).
    + apply preserves_ret.
    + apply preserves_bind; [apply preserves_emit | intros _; apply preserves_ret].
Qed.

Lemma preserves_get_device_infos : preserves R get_device_infos.
Proof.
  apply preserves_check_not_measuring. unfold get_device_infos_body.
  apply preserves_bind; [apply preserves_send_communicator | intros _].
  apply preserves_bind; [apply preserves_wait_not_busy | intros _].
  apply preserves_bind; [apply preserves_get | intros self].
  apply preserves_emit.
Qed.

Lemma preserves_send_all l : preserves R (send_all l).
Proof.
  apply preserves_for_each. intros [cmd op].
  apply preserves_bind; [apply preserves_send_communicator | intros _].
  apply preserves_ret.
Qed.

Lemma preserves_get_setup : preserves R get_setup.
Proof.
  apply preserves_check_not_measuring. intros s. rewrite get_setup_body_eq.
  revert s. apply preserves_bind; [apply preserves_send_all | intros _].
  apply preserves_bind; [apply preserves_wait_not_busy | intros _].
  apply preserves_bind; [apply preserves_get | intros self].
  apply preserves_emit.
Qed.

Lemma preserves_set_setup : preserves R set_setup.
Proof.
  apply preserves_check_not_measuring. intros s. rewrite set_setup_body_eq.
  revert s. apply preserves_bind; [apply preserves_send_all | intros _].
  apply preserves_bind; [apply preserves_get | intros self].
  apply preserves_bind.
  - apply preserves_for_each. intros idx. unfold set_setup_row.
    apply preserves_bind; [apply preserves_modify; intros s; apply R_setup | intros _].
    apply preserves_bind; [apply preserves_send_communicator | intros _].
    apply preserves_ret.
  - intros _. apply preserves_bind; [apply preserves_wait_not_busy | intros _].
    apply preserves_bind; [apply preserves_get_setup | intros _].
    apply preserves_ret.
Qed.

Lemma preserves__check_is_sciospec_dev port : preserves R (_check_is_sciospec_dev port).
Proof.
  unfold _check_is_sciospec_dev.
  apply preserves_bind; [apply preserves_get | intros self].
  apply preserves_bind; [apply preserves__connect_interface | intros _].
  apply preserves_bind; [apply preserves__stop_meas | intros _].
  apply preserves_bind; [apply preserves_get_device_infos | intros _].
  apply preserves_bind; [apply preserves_get | intros self'].
  apply preserves_bind; [apply preserves__disconnect_interface | intros _].
  apply preserves_bind; [apply preserves_modify; intros s; apply R_setup | intros _].
  apply preserves_ret.
Qed.

(** The operations that select a device, for relations that ignore the
    name and the list. *)
Hypothesis R_name : forall s n, R s (with_device_name n s).
Hypothesis R_devices : forall s d, R s (with_sciospec_devices d s).

Lemma preserves_set_device_name name : preserves R (set_device_name name).
Proof.
  apply preserves_check_not_measuring. unfold set_device_name_body.
  apply preserves_bind; [apply preserves__get_sciospec_port | intros port].
  apply preserves_modify. intros s. apply R_name.
Qed.

Lemma preserves_get_devices : preserves R get_devices.
Proof.
  apply preserves_check_not_measuring. intros s. unfold get_devices_body.
  destruct (get_ports_available (world s)) as [ports w].
  eapply R_trans; [apply (R_world s w)|]. generalize (with_world w s). clear s.
  apply preserves_bind; [apply preserves_modify; intros s; apply R_devices | intros _].
  apply preserves_bind.
  - apply preserves_for_each. intros port. unfold get_devices_port.
    apply preserves_bind; [apply preserves__check_is_sciospec_dev | intros [name|]].
    + apply preserves_modify. intros s.
      eapply R_trans; [apply R_devices | apply R_name].
    + apply preserves_ret.
  - intros _. apply preserves_bind; [apply preserves_get | intros self].
    apply preserves_bind; [apply preserves_emit | intros _]. apply preserves_ret.
Qed.

Lemma preserves_connect_device : preserves R connect_device.
Proof.
  apply preserves_check_not_measuring. unfold connect_device_body.
  apply preserves_bind; [apply preserves_get | intros self].
  apply preserves_bind; [apply preserves__get_sciospec_port | intros [port|]];
    [|apply preserves_ret].
  apply preserves_bind; [apply preserves__connect_interface | intros ok].
  apply preserves_bind.
  - destruct ok; [|apply preserves_ret].
    apply preserves_bind; [apply preserves_get_device_infos | intros _].
    apply preserves_ret.
  - intros _. apply preserves_bind; [apply preserves_modify; intros s; apply R_name|].
    intros _. apply preserves_bind; [|intros _; apply preserves_ret].
    unfold emit_dev_status. apply preserves_bind; [apply preserves_get | intros ?].
    apply preserves_emit.
Qed.

Lemma preserves_disconnect_device : preserves R disconnect_device.
Proof.
  apply preserves_check_not_measuring. unfold disconnect_device_body.
  apply preserves_bind; [apply preserves_get | intros self].
  destruct (negb (is_connected self)); [apply preserves_ret|].
  apply preserves_bind; [apply preserves__disconnect_interface | intros ok].
  apply preserves_bind.
  - destruct ok; [|apply preserves_ret]. apply preserves_modify. intros s.
    eapply R_trans; [apply R_setup | apply R_world].
  - intros _. apply preserves_bind; [apply preserves_modify; intros s; apply R_name|].
    intros _. apply preserves_bind.
    + unfold emit_dev_status. apply preserves_bind; [apply preserves_get | intros ?].
      apply preserves_emit.
    + intros _. apply preserves_bind; [apply preserves_get_devices | intros _].
      apply preserves_ret.
Qed.

Lemma preserves_software_reset : preserves R software_reset.
Proof.
  apply preserves_check_not_measuring. unfold software_reset_body.
  apply preserves_bind; [apply preserves_send_communicator | intros _].
  apply preserves_bind; [apply preserves_wait_not_busy | intros _].
  apply preserves_bind; [apply preserves_emit | intros _].
  apply preserves_bind; [apply preserves_disconnect_device | intros _].
  apply preserves_emit.
Qed.

End Preserves.

(** The three relations at hand. *)

Lemma same_status_trans (s1 s2 s3 : Device) :
  same_status s1 s2 -> same_status s2 s3 -> same_status s1 s3.
Proof. unfold same_status. congruence. Qed.

Lemma same_selection_trans (s1 s2 s3 : Device) :
  same_selection s1 s2 -> same_selection s2 s3 -> same_selection s1 s3.
Proof. unfold same_selection. intros [A1 A2] [B1 B2]. split; congruence. Qed.

Lemma trace_grows_trans (s1 s2 s3 : Device) :
  trace_grows s1 s2 -> trace_grows s2 s3 -> trace_grows s1 s3.
Proof.
  intros [a Ha] [b Hb]. exists (a ++ b). rewrite Hb, Ha, app_assoc. reflexivity.
Qed.

Lemma trace_grows_refl (s : Device) : trace_grows s s.
Proof. exists []. symmetry. apply app_nil_r. Qed.

Lemma trace_grows_emit (s : Device) (e : Eff) :
  trace_grows s (with_trace (trace s ++ [e]) s).
Proof. exists [e]. reflexivity. Qed.

Ltac same_status_tac :=
  first [ exact same_status_trans
        | intros; reflexivity ].

Ltac trace_grows_tac :=
  first [ exact trace_grows_trans
        | exact trace_grows_emit
        | intros; apply trace_grows_refl ].

(** X1. None of the eight guarded operations changes the life-cycle
    state, in any state: not even the scan, which sends a Stop frame to
    every port it probes. *)
Theorem guarded_operations_keep_meas_status (name : option string) (s : Device) :
  same_status s (snd (set_device_name name s)) /\
  same_status s (snd (get_devices s)) /\
  same_status s (snd (connect_device s)) /\
  same_status s (snd (disconnect_device s)) /\
  same_status s (snd (get_device_infos s)) /\
  same_status s (snd (set_setup s)) /\
  same_status s (snd (get_setup s)) /\
  same_status s (snd (software_reset s)).
Proof.
  split; [|split; [|split; [|split; [|split; [|split; [|split]]]]]];
    [ apply (preserves_set_device_name same_status)
    | apply (preserves_get_devices same_status)
    | apply (preserves_connect_device same_status)
    | apply (preserves_disconnect_device same_status)
    | apply (preserves_get_device_infos same_status)
    | apply (preserves_set_setup same_status)
    | apply (preserves_get_setup same_status)
    | apply (preserves_software_reset same_status) ];
    same_status_tac.
Qed.

(** X2. Asking for the device infos, reading the setup, pushing the setup
    and probing a port leave the selected device name and the list of
    devices as they were. *)
Theorem setup_operations_keep_selection (port : string) (s : Device) :
  same_selection s (snd (get_device_infos s)) /\
  same_selection s (snd (get_setup s)) /\
  same_selection s (snd (set_setup s)) /\
  same_selection s (snd (_check_is_sciospec_dev port s)).
Proof.
  split; [|split; [|split]];
    [ apply (preserves_get_device_infos same_selection)
    | apply (preserves_get_setup same_selection)
    | apply (preserves_set_setup same_selection)
    | apply (preserves__check_is_sciospec_dev same_selection) ];
    first [ exact same_selection_trans | intros; split; reflexivity ].
Qed.

(** ** Resolution of a device name *)

Lemma _get_sciospec_port_spec (name : option string) (s : Device) :
  let r := _get_sciospec_port name s in
  fst r = name ≫= (fun n => sciospec_devices s !! n) /\
  match fst r with
  | Some _ => snd r = s
  | None =>
      snd r = with_trace
        (trace s ++
         [if decide (sciospec_devices s = ∅) then
            WarningMsgBox "No Sciospec devices - DETECTED"
              "Please refresh the list of availables device first and retry!"
          else
            ErrorMsgBox "Sciospec device - NOT FOUND "
              (String.append "Please reconnect your device "
                 (String.append dquote (String.append (py_str name) dquote)))]) s
  end.
Proof.
  cbv zeta. unfold _get_sciospec_port. rewrite bind_eq. cbn [get fst snd].
  destruct (decide (sciospec_devices s = ∅)) as [He|Hne].
  - rewrite bind_eq. cbn. split; [|reflexivity].
    destruct name as [n|]; cbn; [rewrite He, lookup_empty|]; reflexivity.
  - destruct (name ≫= _) as [port|] eqn:El.
    + cbn. auto.
    + rewrite bind_eq. cbn. auto.
Qed.

(** X3. [_get_sciospec_port] returns the port the list holds for the name,
    and [None] for a name that is missing or not given.  The device is
    left as it was but for one message box on failure: the warning when
    the list is empty, the error that quotes the name otherwise. *)
Theorem get_sciospec_port_is_lookup (name : option string) (s : Device) :
  let r := _get_sciospec_port name s in
  fst r = name ≫= (fun n => sciospec_devices s !! n) /\
  match fst r with
  | Some _ => snd r = s
  | None =>
      snd r = with_trace
        (trace s ++
         [if decide (sciospec_devices s = ∅) then
            WarningMsgBox "No Sciospec devices - DETECTED"
              "Please refresh the list of availables device first and retry!"
          else
            ErrorMsgBox "Sciospec device - NOT FOUND "
              (String.append "Please reconnect your device "
                 (String.append dquote (String.append (py_str name) dquote)))]) s
  end.
Proof. exact (_get_sciospec_port_spec name s). Qed.

(** X4. On a device that is not Measuring, [set_device_name] leaves the
    list as it was and selects the given name exactly when the list holds
    a non-empty port for it; in every other case (name missing from the
    list, list empty, empty port, no name) the selection falls back to
    "None Device". *)
Theorem set_device_name_selects_listed (name : option string) (s : Device) :
  meas_status s <> MEASURING ->
  let s' := snd (set_device_name name s) in
  sciospec_devices s' = sciospec_devices s /\
  device_name s' =
    match name ≫= (fun n => sciospec_devices s !! n), name with
    | Some port, Some n => if String.eqb port "" then NONE_DEVICE else n
    | _, _ => NONE_DEVICE
    end.
Proof.
  intros Hm. cbv zeta. apply is_measuring_false in Hm.
  unfold set_device_name. rewrite check_not_measuring_runs by exact Hm. cbn [snd].
  unfold set_device_name_body. rewrite bind_eq.
  destruct (_get_sciospec_port_spec name s) as [H1 H2]. cbv zeta in H1, H2.
  rewrite H1 in H2 |- *.
  destruct (name ≫= _) as [port|].
  - rewrite H2. cbn. destruct name, (String.eqb port ""); cbn; auto.
  - rewrite H2. cbn. auto.
Qed.

(** X5. [connect_device] for a name the list does not hold (or with an
    empty list) returns [False] without opening a port, sending a frame or
    posting a status: link, setup and fired signals are untouched, and the
    selected name is kept, not reset. *)
Theorem connect_device_unknown_name (s : Device) :
  meas_status s <> MEASURING ->
  sciospec_devices s !! device_name s = None ->
  let r := connect_device s in
  fst r = Some false /\
  world (snd r) = world s /\
  setup (snd r) = setup s /\
  device_name (snd r) = device_name s /\
  signals (trace (snd r)) = signals (trace s) /\
  sent (trace (snd r)) = sent (trace s).
Proof.
  intros Hm Hl. cbv zeta. apply is_measuring_false in Hm.
  unfold connect_device. rewrite check_not_measuring_runs by exact Hm.
  cbn [fst snd]. unfold connect_device_body. rewrite !bind_eq. cbn [get fst snd].
  destruct (_get_sciospec_port_spec (Some (device_name s)) s) as [H1 H2].
  cbv zeta in H1, H2. cbn [mbind option_bind] in H1. rewrite Hl in H1.
  rewrite H1 in H2 |- *. rewrite H2. cbn [ret fst snd with_trace world setup
    device_name trace].
  rewrite signals_app, sent_app.
  destruct (decide (sciospec_devices s = ∅));
    cbn [signals List.filter is_signal sent]; rewrite !app_nil_r;
    repeat split; reflexivity.
Qed.

(** ** The scan *)

Lemma get_devices_port_scanned (ports : list string) (name0 port : string) (s : Device) :
  In port ports ->
  scanned ports name0 s -> scanned ports name0 (snd (get_devices_port port s)).
Proof.
  intros Hin [He Hn]. unfold get_devices_port. rewrite bind_eq.
  assert (S : same_selection s (snd (_check_is_sciospec_dev port s))).
  { apply (preserves__check_is_sciospec_dev same_selection);
      first [ exact same_selection_trans | intros; split; reflexivity ]. }
  destruct S as [S1 S2].
  set (s1 := snd (_check_is_sciospec_dev port s)) in *.
  destruct (fst (_check_is_sciospec_dev port s)) as [name|]; unfold scanned;
    cbn [modify ret snd with_device_name with_sciospec_devices
         sciospec_devices device_name].
  - rewrite S2. split.
    + intros n p Hl. destruct (decide (name = n)) as [->|Hne].
      * rewrite lookup_insert_eq in Hl. congruence.
      * rewrite lookup_insert_ne in Hl by exact Hne. eauto.
    + right. rewrite lookup_insert_eq. eauto.
  - rewrite S1, S2. auto.
Qed.

Lemma for_each_get_devices_port_scanned (ports : list string) (name0 : string)
    (l : list string) (s : Device) :
  (forall p, In p l -> In p ports) ->
  scanned ports name0 s -> scanned ports name0 (snd (for_each l get_devices_port s)).
Proof.
  revert s. induction l as [|p l IH]; intros s Hl Hs; [exact Hs|].
  cbn [for_each]. rewrite bind_eq. apply IH.
  - intros q Hq. apply Hl. right. exact Hq.
  - apply get_devices_port_scanned; [apply Hl; left; reflexivity | exact Hs].
Qed.

Lemma get_devices_spec (s : Device) :
  meas_status s <> MEASURING ->
  let ports := fst (get_ports_available (world s)) in
  let r := get_devices s in
  fst r = Some (sciospec_devices (snd r)) /\
  scanned ports (device_name s) (snd r) /\
  (ports = [] ->
   sciospec_devices (snd r) = ∅ /\ device_name (snd r) = device_name s) /\
  exists earlier,
    trace (snd r) = earlier ++ [ToGui (DevAvailables (sciospec_devices (snd r)))].
Proof.
  intros Hm. cbv zeta. apply is_measuring_false in Hm.
  unfold get_devices. rewrite check_not_measuring_runs by exact Hm.
  cbn [fst snd]. unfold get_devices_body.
  destruct (get_ports_available (world s)) as [ports w]. cbn [fst].
  rewrite !bind_eq. cbn [modify get ret emit_to_gui emit fst snd].
  set (s0 := with_sciospec_devices ∅ (with_world w s)).
  assert (H0 : scanned ports (device_name s) s0).
  { split; [intros n p Hl; cbn in Hl; rewrite lookup_empty in Hl; discriminate|].
    left. reflexivity. }
  pose proof (for_each_get_devices_port_scanned ports (device_name s) ports s0
                (fun p Hp => Hp) H0) as HL.
  set (sL := snd (for_each ports get_devices_port s0)) in *.
  cbn [with_trace sciospec_devices device_name trace].
  split; [reflexivity|]. split; [exact HL|]. split; [|eexists; reflexivity].
  intros ->. split; reflexivity.
Qed.

(** X6. On a device that is not Measuring, [get_devices] returns the list
    it has just stored and posted; every entry of it holds one of the
    ports the interface listed, and the selected name is the former one or
    an entry of the new list.  With no port available the list is empty
    and the selected name is left as it was. *)
Theorem get_devices_lists_scanned_ports (s : Device) :
  meas_status s <> MEASURING ->
  let ports := fst (get_ports_available (world s)) in
  let r := get_devices s in
  fst r = Some (sciospec_devices (snd r)) /\
  scanned ports (device_name s) (snd r) /\
  (ports = [] ->
   sciospec_devices (snd r) = ∅ /\ device_name (snd r) = device_name s) /\
  exists earlier,
    trace (snd r) = earlier ++ [ToGui (DevAvailables (sciospec_devices (snd r)))].
Proof. exact (get_devices_spec s). Qed.





(** ** Disconnection and reset *)




(** ** Frames, the burst count and the button *)

(** X9. Frame indices that differ from the burst count never stop the
    measurement: reported one after the other, in any state, they leave
    the device exactly as it was.  A count that is stepped over is never
    reached. *)
Theorem frames_off_the_burst_count_are_ignored (idxs : list Z) (s : Device) :
  Forall (fun idx => idx <> get_burst (setup s)) idxs ->
  for_each idxs check_nb_meas_reached s = (tt, s).
Proof.
  induction 1 as [|idx idxs Hne _ IH]; [reflexivity|].
  cbn [for_each]. rewrite bind_ignore.
  assert (E : check_nb_meas_reached idx s = (tt, s)).
  { unfold check_nb_meas_reached. rewrite bind_eq. cbn [get fst snd].
    destruct (negb (is_measuring s)); [reflexivity|].
    apply Z.eqb_neq in Hne. rewrite Hne, andb_false_r. reflexivity. }
  rewrite E. exact IH.
Qed.

Lemma sent_changed_events (old new : MeasuringStates) : sent (changed_events old new) = [].
Proof. unfold changed_events. destruct (changed_fires old new); reflexivity. Qed.

(** X10. One press of the start / pause / resume button sends exactly one
    frame: Stop when Measuring, Start otherwise.  When that send succeeds
    the state moves Idle to Measuring, Measuring to Paused, Paused to
    Measuring; when it fails the state stays.  The button never leads to
    Idle from Measuring or Paused. *)
Theorem start_paused_resume_meas_transitions (s : Device) :
  let s' := snd (start_paused_resume_meas s) in
  meas_status s' =
    match meas_status s with
    | IDLE => if fst (_start_meas s) then MEASURING else IDLE
    | MEASURING => if fst (_stop_meas s) then PAUSED else MEASURING
    | PAUSED => if fst (_start_meas s) then MEASURING else PAUSED
    end /\
  sent (trace s') =
    sent (trace s) ++
    [(CMD_START_STOP_MEAS,
      match meas_status s with MEASURING => OP_STOP_MEAS | _ => OP_START_MEAS end)] /\
  (meas_status s <> IDLE -> meas_status s' <> IDLE).
Proof.
  cbv zeta.
  assert (H : meas_status (snd (start_paused_resume_meas s)) =
              match meas_status s with
              | IDLE => if fst (_start_meas s) then MEASURING else IDLE
              | MEASURING => if fst (_stop_meas s) then PAUSED else MEASURING
              | PAUSED => if fst (_start_meas s) then MEASURING else PAUSED
              end /\
              sent (trace (snd (start_paused_resume_meas s))) =
              sent (trace s) ++
              [(CMD_START_STOP_MEAS,
                match meas_status s with
                | MEASURING => OP_STOP_MEAS | _ => OP_START_MEAS end)]).
  { destruct (meas_status s) eqn:Es.
    - rewrite start_paused_resume_meas_idle by exact Es.
      destruct (start_meas_body_spec (snd (dataset_init_for_start s))) as (_ & A1 & A2).
      cbv zeta in A1, A2. unfold dataset_init_for_start in A1, A2 |- *.
      rewrite bind_eq in A1, A2 |- *.
      cbn [get fst snd emit_to_dataset emit modify] in A1, A2 |- *.
      rewrite _start_meas_with_trace in A1, A2.
      cbn [with_trace meas_status trace] in A1, A2. rewrite Es in A1, A2.
      rewrite A1, A2, !sent_app. cbn [sent frame].
      destruct (fst (_start_meas s)).
      + rewrite sent_app, sent_changed_events. cbn [sent app].
        rewrite app_nil_r. auto.
      + cbn [sent]. rewrite app_nil_r. auto.
    - rewrite start_paused_resume_meas_measuring by exact Es.
      destruct (pause_meas_spec s) as (A1 & A2). cbv zeta in A1, A2.
      rewrite Es in A1, A2. rewrite A1, A2, sent_app. cbn [sent frame].
      destruct (fst (_stop_meas s)).
      + rewrite sent_app, sent_changed_events. cbn [sent app]. auto.
      + auto.
    - rewrite start_paused_resume_meas_paused by exact Es.
      destruct (resume_meas_body_spec s) as (_ & A1 & A2). cbv zeta in A1, A2.
      rewrite Es in A1, A2. rewrite A1, A2, sent_app. cbn [sent frame].
      destruct (fst (_start_meas s)).
      + rewrite sent_changed_events. auto.
      + auto. }
  destruct H as [H1 H2]. split; [exact H1|]. split; [exact H2|].
  intros Hne. rewrite H1.
  destruct (meas_status s); [congruence| |];
    [destruct (fst (_stop_meas s)) | destruct (fst (_start_meas s))]; discriminate.
Qed.

(** X11. [pause_meas] sends the Stop frame, like [stop_meas].  When the
    send succeeds the state becomes Paused, from any state, the dataset is
    told to reinitialise for the pause and then the GUI gets
    [FrameProgress(None, 0)]: the progress bar is reset, the frame index
    is not. *)
Theorem pause_meas_checkpoints (s : Device) :
  fst (_stop_meas s) = true ->
  let s' := snd (pause_meas s) in
  meas_status s' = PAUSED /\
  trace s' = trace s ++ frame CMD_START_STOP_MEAS OP_STOP_MEAS s ::
             changed_events (meas_status s) PAUSED ++
             [ToDataset reinit_4_pause; ToGui (FrameProgress None 0)] /\
  sent (trace s') = sent (trace (snd (stop_meas s))) /\
  forall cur, last_idx_frame (trace s') cur = last_idx_frame (trace s) cur.
Proof.
  intros Hok. cbv zeta.
  destruct (pause_meas_spec s) as (A1 & A2).
  destruct (stop_meas_spec s) as (_ & _ & _ & B2).
  cbv zeta in A1, A2, B2. rewrite Hok in A1, A2, B2.
  split; [exact A1|]. split; [exact A2|]. split.
  - rewrite A2, B2, !sent_app. cbn [sent frame].
    rewrite !sent_app, !sent_changed_events. reflexivity.
  - intros cur. rewrite A2, last_idx_frame_app. cbn [last_idx_frame frame].
    rewrite last_idx_frame_app, last_idx_frame_changed_events. reflexivity.
Qed.

(** X16. [start_meas] and [resume_meas] are guarded too: while Measuring
    both are rejected and no frame is sent.  In the other two states both
    run, whichever the state, and do the same thing but for one
    notification: a start that succeeds ends with [FrameInfo("")] on top
    of what the resume does. *)
Theorem start_meas_is_resume_meas_and_frame_info (s : Device) :
  (meas_status s = MEASURING ->
   start_meas s = (None, rejected s) /\ resume_meas s = (None, rejected s)) /\
  (meas_status s <> MEASURING ->
   fst (start_meas s) = Some (fst (_start_meas s)) /\
   fst (resume_meas s) = Some (fst (_start_meas s)) /\
   snd (start_meas s) =
     (if fst (_start_meas s)
      then snd (emit_to_gui (FrameInfo "") (snd (resume_meas s)))
      else snd (resume_meas s))).
Proof.
  split; intros Hm.
  - apply is_measuring_true in Hm. unfold start_meas, resume_meas.
    rewrite !check_not_measuring_rejects by exact Hm. auto.
  - apply is_measuring_false in Hm. unfold start_meas, resume_meas.
    rewrite !check_not_measuring_runs by exact Hm. cbn [fst snd].
    unfold start_meas_body, resume_meas_body. rewrite !bind_eq. cbn [ret fst snd].
    destruct (fst (_start_meas s)).
    + rewrite bind_ignore. auto.
    + auto.
Qed.

End Properties.

(** * The properties on the simulated bench *)

(** On the bench in state Measuring [get_setup] is rejected; a forced stop
    reaches Idle; in state Paused the decorated method is run. *)
Lemma guard_engages_on_measuring_only_bench :
  meas_status (Sim.device Sim.good_link MEASURING) = MEASURING /\
  fst (_stop_meas (Sim.device Sim.good_link MEASURING)) = true /\
  meas_status (Sim.device Sim.good_link PAUSED) = PAUSED /\
  get_setup (Sim.device Sim.good_link MEASURING) =
    (None, rejected (Sim.device Sim.good_link MEASURING)) /\
  fst (check_not_measuring true get (Sim.device Sim.good_link MEASURING)) <> None /\
  fst (check_not_measuring false get_setup_body (Sim.device Sim.good_link PAUSED)) =
    Some tt.
Proof.
  destruct (@guard_engages_on_measuring_only Sim.setup Sim.link _ _) as (H1 & H2 & H3).
  split; [reflexivity|]. split; [reflexivity|]. split; [reflexivity|].
  split; [|split].
  - apply (H1 None (Sim.device Sim.good_link MEASURING)). reflexivity.
  - destruct (H2 _ get (Sim.device Sim.good_link MEASURING)) as [_ E];
      [reflexivity | reflexivity |].
    rewrite E. discriminate.
  - rewrite (H3 _ false get_setup_body (Sim.device Sim.good_link PAUSED)); reflexivity.
Defined.

(** C1 as stated fails: in state Paused [get_setup] is neither rejected
    nor preceded by a stop; its eleven frames go out and the state is
    still Paused afterwards. *)
Lemma paused_get_setup_is_run :
  let d := Sim.device Sim.good_link PAUSED in
  meas_status d = PAUSED /\
  fst (get_setup d) = Some tt /\
  sent (trace (snd (get_setup d))) = get_setup_order /\
  meas_status (snd (get_setup d)) = PAUSED.
Proof. vm_compute. auto. Qed.

Lemma burst_reached_calls_stop_bench :
  let d := Sim.device Sim.good_link MEASURING in
  meas_status d = MEASURING /\ 0 < get_burst (setup d) /\ 3 = get_burst (setup d) /\
  fst (_stop_meas d) = true /\
  meas_status (snd (check_nb_meas_reached 3 d)) = IDLE.
Proof.
  cbv zeta.
  destruct (burst_reached_calls_stop 3 (Sim.device Sim.good_link MEASURING)) as [H _].
  destruct H as [_ H]; [reflexivity | reflexivity | reflexivity |].
  split; [reflexivity|]. split; [reflexivity|]. split; [reflexivity|].
  split; [reflexivity|]. apply H. reflexivity.
Defined.

(** C2 as stated fails: with burst count 3 reached while Measuring, on a
    link that refuses the Stop frame, the state stays Measuring. *)
Lemma burst_reached_but_stop_refused :
  let d := Sim.device Sim.dead_link MEASURING in
  meas_status d = MEASURING /\ get_burst (setup d) = 3 /\
  meas_status (snd (check_nb_meas_reached 3 d)) = MEASURING.
Proof. vm_compute. auto. Qed.

Lemma start_pause_resume_round_trip_bench :
  let d := Sim.device Sim.good_link IDLE in
  let s1 := snd (start_paused_resume_meas d) in
  let s2 := snd (start_paused_resume_meas s1) in
  let s3 := snd (start_paused_resume_meas s2) in
  meas_status d = IDLE /\ fst (_start_meas d) = true /\
  fst (_stop_meas s1) = true /\ fst (_start_meas s2) = true /\
  meas_status s1 = MEASURING /\ meas_status s2 = PAUSED /\ meas_status s3 = MEASURING /\
  last_idx_frame (trace s3) None = last_idx_frame (trace d) None.
Proof.
  cbv zeta.
  destruct (start_pause_resume_round_trip (Sim.device Sim.good_link IDLE))
    as ((M1 & _) & (M2 & _) & (M3 & _) & F);
    [reflexivity | reflexivity | reflexivity | reflexivity |].
  split; [reflexivity|]. split; [reflexivity|]. split; [reflexivity|].
  split; [reflexivity|]. split; [exact M1|]. split; [exact M2|]. split; [exact M3|].
  destruct (F None) as [F1 F3]. rewrite F3. exact F1.
Defined.

(** C3 as stated fails: a successful start from Idle posts no progress
    notification at all, neither through the button nor through
    [start_meas]. *)
Lemma start_posts_no_progress :
  let d := Sim.device Sim.good_link IDLE in
  fst (start_meas d) = Some true /\
  meas_status (snd (start_meas d)) = MEASURING /\
  existsb is_frame_progress (trace (snd (start_meas d))) = false /\
  meas_status (snd (start_paused_resume_meas d)) = MEASURING /\
  existsb is_frame_progress (trace (snd (start_paused_resume_meas d))) = false.
Proof. vm_compute. auto. Qed.


Lemma stop_meas_sends_stop_and_resets_bench :
  let d := Sim.device Sim.good_link PAUSED in
  (meas_status d = MEASURING \/ meas_status d = PAUSED) /\
  fst (_stop_meas d) = true /\
  meas_status (snd (stop_meas d)) = IDLE.
Proof.
  cbv zeta. split; [right; reflexivity|]. split; [reflexivity|].
  destruct (stop_meas_sends_stop_and_resets (Sim.device Sim.good_link PAUSED))
    as [_ H]; [right; reflexivity|].
  apply H. reflexivity.
Defined.

Lemma resume_posts_no_frame_info_bench :
  meas_status (Sim.device Sim.good_link PAUSED) = PAUSED /\
  meas_status (Sim.device Sim.good_link IDLE) = IDLE /\
  fst (_start_meas (Sim.device Sim.good_link IDLE)) = true /\
  existsb is_frame_info (trace (snd (resume_meas (Sim.device Sim.good_link PAUSED)))) = false /\
  existsb is_frame_info (trace (snd (start_meas (Sim.device Sim.good_link IDLE)))) = true.
Proof.
  destruct (resume_posts_no_frame_info (Sim.device Sim.good_link PAUSED)) as [HP _].
  destruct (resume_posts_no_frame_info (Sim.device Sim.good_link IDLE)) as [_ HI].
  destruct HP as (T1 & _ & F1); [reflexivity|].
  destruct HI as (T2 & _ & F2); [reflexivity | reflexivity |].
  split; [reflexivity|]. split; [reflexivity|]. split; [reflexivity|]. split.
  - rewrite T1. exact F1.
  - rewrite T2. exact F2.
Defined.



Lemma failed_send_changes_nothing_bench :
  let d := Sim.device Sim.dead_link PAUSED in
  fst (_start_meas d) = false /\ fst (_stop_meas d) = false /\
  unchanged d (snd (start_meas d)) /\ unchanged d (snd (resume_meas d)) /\
  unchanged d (snd (pause_meas d)) /\ unchanged d (snd (stop_meas d)).
Proof.
  cbv zeta.
  destruct (failed_send_changes_nothing (Sim.device Sim.dead_link PAUSED)) as [HA HB].
  destruct HA as [A1 A2]; [reflexivity|].
  destruct HB as [B1 B2]; [reflexivity|].
  split; [reflexivity|]. split; [reflexivity|].
  split; [exact A1|]. split; [exact A2|]. split; [exact B1 | exact B2].
Defined.

Lemma connect_prompt_whatever_the_link_bench :
  let d := Sim.device Sim.dead_link IDLE in
  let c := Sim.device Sim.claimed_link IDLE in
  meas_status d <> MEASURING /\
  sciospec_devices d !! device_name d = Some "COM3" /\
  fst (interface_open "COM3" (world d)) = false /\
  interface_is_connected (snd (interface_open "COM3" (world d))) = false /\
  fst (interface_open "COM3" (world c)) = false /\
  interface_is_connected (snd (interface_open "COM3" (world c))) = true /\
  fst (connect_device d) = Some false /\
  trace (snd (connect_device d)) =
    trace d ++ [ToGui (DevStatus false "None Device - CONNECTED")] /\
  trace (snd (connect_device c)) =
    trace c ++ [ToGui (DevStatus true "None Device - CONNECTED")].
Proof.
  cbv zeta.
  destruct (@connect_prompt_whatever_the_link Sim.setup Sim.link _ _) as [_ H].
  destruct (H "COM3" (Sim.device Sim.dead_link IDLE)) as (H1 & _ & _ & H4 & _);
    [discriminate | reflexivity | reflexivity |].
  destruct (H "COM3" (Sim.device Sim.claimed_link IDLE)) as (_ & _ & _ & _ & H5);
    [discriminate | reflexivity | reflexivity |].
  split; [discriminate|]. split; [reflexivity|]. split; [reflexivity|].
  split; [reflexivity|]. split; [reflexivity|]. split; [reflexivity|].
  split; [exact H1|]. split; [apply H4; reflexivity | apply H5; reflexivity].
Defined.

(** C10 as stated fails: when the open fails on an interface that is
    still connected, the name is reset and the status is posted with the
    prompt "None Device - CONNECTED" and the flag [True]. *)
Lemma failed_connection_posts_a_true_flag :
  let d := Sim.device Sim.claimed_link IDLE in
  fst (interface_open "COM3" (world d)) = false /\
  fst (connect_device d) = Some false /\
  device_name (snd (connect_device d)) = NONE_DEVICE /\
  trace (snd (connect_device d)) =
    [ToGui (DevStatus true "None Device - CONNECTED")].
Proof. vm_compute. auto. Qed.

(** * More of the controller on the bench *)

Lemma set_device_name_selects_listed_bench :
  let d := Sim.device Sim.good_link PAUSED in
  meas_status d <> MEASURING /\
  device_name (snd (set_device_name (Some "DevA") d)) = "DevA" /\
  device_name (snd (set_device_name (Some "DevZ") d)) = NONE_DEVICE.
Proof.
  cbv zeta. split; [discriminate|].
  destruct (set_device_name_selects_listed (Some "DevA") (Sim.device Sim.good_link PAUSED))
    as [_ H1]; [discriminate|].
  destruct (set_device_name_selects_listed (Some "DevZ") (Sim.device Sim.good_link PAUSED))
    as [_ H2]; [discriminate|].
  split; [rewrite H1 | rewrite H2]; reflexivity.
Defined.

Lemma connect_device_unknown_name_bench :
  meas_status Sim.stray_device <> MEASURING /\
  sciospec_devices Sim.stray_device !! device_name Sim.stray_device = None /\
  fst (connect_device Sim.stray_device) = Some false /\
  device_name (snd (connect_device Sim.stray_device)) = "DevB".
Proof.
  split; [discriminate|]. split; [reflexivity|].
  destruct (connect_device_unknown_name Sim.stray_device) as (H1 & _ & _ & H4 & _);
    [discriminate | reflexivity |].
  split; [exact H1 | exact H4].
Defined.

Lemma get_devices_lists_scanned_ports_bench :
  let d := Sim.stray_device in
  meas_status d <> MEASURING /\
  scanned ["COM3"] "DevB" (snd (get_devices d)).
Proof.
  cbv zeta. split; [discriminate|].
  destruct (get_devices_lists_scanned_ports Sim.stray_device) as (_ & H & _);
    [discriminate|].
  exact H.
Defined.



Lemma frames_off_the_burst_count_are_ignored_bench :
  let d := Sim.device Sim.good_link MEASURING in
  Forall (fun idx => idx <> get_burst (setup d)) [1; 2; 4; 5] /\
  for_each [1; 2; 4; 5] check_nb_meas_reached d = (tt, d).
Proof.
  cbv zeta.
  assert (H : Forall (fun idx => idx <> get_burst (setup (Sim.device Sim.good_link MEASURING)))
                [1; 2; 4; 5]) by (repeat constructor; discriminate).
  split; [exact H|].
  exact (frames_off_the_burst_count_are_ignored [1; 2; 4; 5]
           (Sim.device Sim.good_link MEASURING) H).
Defined.

Lemma start_paused_resume_meas_transitions_bench :
  let d := Sim.device Sim.good_link MEASURING in
  meas_status d <> IDLE /\
  meas_status (snd (start_paused_resume_meas d)) <> IDLE.
Proof.
  cbv zeta. split; [discriminate|].
  destruct (start_paused_resume_meas_transitions (Sim.device Sim.good_link MEASURING))
    as (_ & _ & H).
  apply H. discriminate.
Defined.

Lemma pause_meas_checkpoints_bench :
  let d := Sim.device Sim.good_link MEASURING in
  fst (_stop_meas d) = true /\
  meas_status (snd (pause_meas d)) = PAUSED /\
  sent (trace (snd (pause_meas d))) = sent (trace (snd (stop_meas d))).
Proof.
  cbv zeta. split; [reflexivity|].
  destruct (pause_meas_checkpoints (Sim.device Sim.good_link MEASURING))
    as (H1 & _ & H3 & _); [reflexivity|].
  split; [exact H1 | exact H3].
Defined.

Lemma start_meas_is_resume_meas_and_frame_info_bench :
  meas_status (Sim.device Sim.good_link MEASURING) = MEASURING /\
  meas_status (Sim.device Sim.good_link PAUSED) <> MEASURING /\
  start_meas (Sim.device Sim.good_link MEASURING) =
    (None, rejected (Sim.device Sim.good_link MEASURING)) /\
  fst (start_meas (Sim.device Sim.good_link PAUSED)) = Some true.
Proof.
  split; [reflexivity|]. split; [discriminate|].
  destruct (start_meas_is_resume_meas_and_frame_info (Sim.device Sim.good_link MEASURING))
    as [H _].
  destruct H as [H _]; [reflexivity|].
  destruct (start_meas_is_resume_meas_and_frame_info (Sim.device Sim.good_link PAUSED))
    as [_ G].
  destruct G as [G _]; [discriminate|].
  split; [exact H | exact G].
Defined.

(** * The update events *)

Module UpdateEventFacts.
Import UpdateEvent.

Lemma post_event_data_without_func (self : EventsAgent) (o : PyObject) :
  is_dataclass_instance o = true -> is_EventDataClass o = true ->
  attrs o !! "func" = None -> attrs o !! "app" = Some (app self) ->
  post_event_data self o = (KeyError (PyStr "func"), o).
Proof.
  destruct o as [dc ev d]. cbn [is_dataclass_instance is_EventDataClass attrs].
  intros -> -> Hf Ha. unfold post_event_data, _mk_dict.
  cbn [negb orb is_dataclass_instance is_EventDataClass attrs].
  rewrite (insert_id d "app" (app self) Ha), Hf. reflexivity.
Qed.

(** What a posted event is like afterwards. *)
Lemma post_event_data_posted (self : EventsAgent) (data : PyObject) :
  is_dataclass_instance data && is_EventDataClass data = true ->
  let posted := snd (post_event_data self data) in
  is_dataclass_instance posted = true /\ is_EventDataClass posted = true /\
  attrs posted !! "func" = None /\ attrs posted !! "app" = Some (app self).
Proof.
  destruct data as [dc ev d]. cbn [is_dataclass_instance is_EventDataClass].
  intros H. apply andb_true_iff in H as [-> ->]. cbv zeta.
  unfold post_event_data, _mk_dict.
  cbn [negb orb is_dataclass_instance is_EventDataClass attrs].
  destruct (<["app" := app self]> d !! "func") as [func|] eqn:Ef.
  - assert (G : forall out : Outcome,
              let o := (out, mkObject true true (delete "func" (<["app" := app self]> d))) in
              is_dataclass_instance (snd o) = true /\ is_EventDataClass (snd o) = true /\
              attrs (snd o) !! "func" = None /\ attrs (snd o) !! "app" = Some (app self)).
    { intros out. cbn. rewrite lookup_delete_eq.
      rewrite lookup_delete_ne by discriminate. rewrite lookup_insert_eq. auto. }
    destruct (events_getitem self func) as [f|raised]; apply G.
  - cbn. rewrite lookup_insert_eq. auto.
Qed.

(** X12. [post_event_data] leaves alone what is not an instance of an
    event dataclass: nothing is called and the object is untouched.  An
    event is consumed by the post, whatever the outcome: the agent takes
    [func] out of the object itself and leaves [app] in it, so that the
    same object posted again raises [KeyError('func')] and calls nothing. *)
Theorem post_event_data_consumes_the_event (self : EventsAgent) (data : PyObject) :
  (is_dataclass_instance data && is_EventDataClass data = false ->
   post_event_data self data = (Ignored, data)) /\
  (is_dataclass_instance data && is_EventDataClass data = true ->
   let posted := snd (post_event_data self data) in
   attrs posted !! "func" = None /\
   attrs posted !! "app" = Some (app self) /\
   post_event_data self posted = (KeyError (PyStr "func"), posted)).
Proof.
  split; intros H.
  - unfold post_event_data.
    destruct (is_dataclass_instance data), (is_EventDataClass data);
      try discriminate; reflexivity.
  - cbv zeta. destruct (post_event_data_posted self data H) as (H1 & H2 & H3 & H4).
    cbv zeta in *. split; [exact H3|]. split; [exact H4|].
    apply post_event_data_without_func; assumption.
Qed.

Lemma dom_of_listed_keys {V} (m : gmap string V) (l : list string) :
  NoDup l -> (forall k, In k l -> is_Some (m !! k)) -> size m = length l ->
  dom m = list_to_set l.
Proof.
  intros Hnd Hin Hsz. symmetry. apply leibniz_equiv.
  apply set_subseteq_size_equiv.
  - intros k Hk. apply elem_of_list_to_set in Hk. apply elem_of_dom.
    apply Hin. apply list_elem_of_In. exact Hk.
  - rewrite size_dom, size_list_to_set by exact Hnd. rewrite Hsz. reflexivity.
Qed.

(** X13. On the catalog [UPDATE_EVENTS], a fresh event of any of the
    eleven dataclasses reaches the update function named by its field
    [func]; the keyword arguments of the call are exactly the parameters
    of that function: the window under [app] and every field of the event
    under its own name. *)
Theorem every_event_reaches_its_update_function
    (self : EventsAgent) (cls : EventClass) (value : string -> PyValue) :
  events self = UPDATE_EVENTS ->
  let kwargs := delete "func" (<["app" := app self]> (attrs (new_event cls value))) in
  exists f,
    fst (post_event_data self (new_event cls value)) = Called f kwargs /\
    __name__ f = func_default cls /\
    dom kwargs = list_to_set (parameters f) /\
    kwargs !! "app" = Some (app self) /\
    forall field, In field (fields cls) -> kwargs !! field = Some (value field).
Proof.
  destruct self as [a ev]. cbn [events app]. intros ->. cbv zeta.
  destruct cls;
    (eexists; split; [vm_compute; reflexivity|];
     split; [reflexivity|]; split;
     [ apply dom_of_listed_keys;
       [ refine (bool_decide_unpack _ _); vm_compute; exact I
       | cbn [parameters In]; intros k Hk;
         repeat (destruct Hk as [<- | Hk]; [vm_compute; eauto|]); destruct Hk
       | vm_compute; reflexivity ]
     | split; [vm_compute; reflexivity|];
       cbn [fields In]; intros field Hf;
       repeat (destruct Hf as [<- | Hf]; [vm_compute; reflexivity|]);
       destruct Hf ]).
Qed.

Lemma post_event_data_consumes_the_event_bench :
  let e := new_event FrameInfo no_value in
  is_dataclass_instance e && is_EventDataClass e = true /\
  fst (post_event_data agent e) =
    Called update_frame_info (<["app" := window]> {["info" := PyNone]}) /\
  post_event_data agent (snd (post_event_data agent e)) =
    (KeyError (PyStr "func"), snd (post_event_data agent e)) /\
  post_event_data agent (mkObject false true (attrs e)) =
    (Ignored, mkObject false true (attrs e)).
Proof.
  cbv zeta. split; [reflexivity|]. split; [vm_compute; reflexivity|].
  destruct (post_event_data_consumes_the_event agent (new_event FrameInfo no_value))
    as [_ H].
  destruct H as (_ & _ & H); [reflexivity|].
  split; [exact H|].
  destruct (post_event_data_consumes_the_event agent
              (mkObject false true (attrs (new_event FrameInfo no_value)))) as [H0 _].
  apply H0. reflexivity.
Defined.

Lemma every_event_reaches_its_update_function_bench :
  events agent = UPDATE_EVENTS /\
  exists f,
    fst (post_event_data agent (new_event DevStatus no_value)) =
      Called f (delete "func" (<["app" := window]> (attrs (new_event DevStatus no_value)))) /\
    __name__ f = "update_device_status".
Proof.
  split; [reflexivity|].
  destruct (every_event_reaches_its_update_function agent DevStatus no_value)
    as (f & H1 & H2 & _); [reflexivity|].
  exists f. split; [exact H1 | exact H2].
Defined.

End UpdateEventFacts.

(** * The update functions *)

Module GuiFacts.
Import Gui.

Lemma on_widget_other (k : string) (f : Widget -> Widget) (ui : Ui_MainWindow)
    (n : string) :
  n <> k -> on_widget k f ui n = ui n.
Proof.
  intros H. unfold on_widget. destruct (String.eqb_spec n k); [contradiction|reflexivity].
Qed.

(** X14. Whatever the imaging type and the window, after
    [update_imaging_inputs_fields] the first frequency selector and its
    label are enabled; the reference-frame selector and its label are
    enabled exactly for a time-difference imaging, the second frequency
    selector and its label exactly for a frequency-difference imaging
    (the tests being made in the order absolute, time, frequency).  The
    text "Reference frame #" is written on the label of the first
    frequency and overwritten at once: that label ends as
    "Ref. Frequence" for a frequency difference and "Meas. Frequency"
    otherwise, and the text of the reference-frame label is never set.
    A second call changes nothing. *)
Theorem update_imaging_inputs_fields_settles (app : Ui_MainWindow) (imaging : Imaging) :
  let app' := update_imaging_inputs_fields app imaging in
  let td := negb (isAbsoluteImaging imaging) && isTimeDifferenceImaging imaging in
  let fd := negb (isAbsoluteImaging imaging) &&
            negb (isTimeDifferenceImaging imaging) &&
            isFrequenceDifferenceImaging imaging in
  enabled (app' "cB_ref_frame_idx") = td /\
  enabled (app' "lab_ref_frame_idx") = td /\
  text (app' "lab_ref_frame_idx") = text (app "lab_ref_frame_idx") /\
  enabled (app' "cB_freq_meas_0") = true /\
  enabled (app' "lab_freq_meas_0") = true /\
  text (app' "lab_freq_meas_0") = (if fd then "Ref. Frequence" else "Meas. Frequency") /\
  enabled (app' "cB_freq_meas_1") = fd /\
  enabled (app' "lab_freq_meas_1") = fd /\
  text (app' "lab_freq_meas_1") = "Meas. Frequency" /\
  (forall name, update_imaging_inputs_fields app' imaging name = app' name).
Proof.
  destruct imaging as [[] [] []]; cbv zeta;
    (repeat (split; [reflexivity|]));
    intros name;
    (destruct (String.eqb_spec name "cB_ref_frame_idx") as [->|H1];
       [vm_compute; reflexivity|]);
    (destruct (String.eqb_spec name "lab_ref_frame_idx") as [->|H2];
       [vm_compute; reflexivity|]);
    (destruct (String.eqb_spec name "lab_freq_meas_0") as [->|H3];
       [vm_compute; reflexivity|]);
    (destruct (String.eqb_spec name "cB_freq_meas_0") as [->|H4];
       [vm_compute; reflexivity|]);
    (destruct (String.eqb_spec name "cB_freq_meas_1") as [->|H5];
       [vm_compute; reflexivity|]);
    (destruct (String.eqb_spec name "lab_freq_meas_1") as [->|H6];
       [vm_compute; reflexivity|]);
    unfold update_imaging_inputs_fields;
    cbv beta iota zeta delta [isAbsoluteImaging isTimeDifferenceImaging
      isFrequenceDifferenceImaging show lab_text setEnabled setText];
    rewrite !on_widget_other by assumption; reflexivity.
Qed.

(** X15. After [update_autosave_options] the directory field and the two
    options "save images" and "load after measurement" are enabled
    exactly when autosave is checked, and each option is checked only if
    it was and autosave is: with autosave off both end unchecked.  The
    autosave box itself is not touched, and a second call changes
    nothing. *)
Theorem update_autosave_options_follows_autosave (app : Ui_MainWindow) :
  let app' := update_autosave_options app in
  let autosave := checked (app "chB_dataset_autosave") in
  app' "chB_dataset_autosave" = app "chB_dataset_autosave" /\
  enabled (app' "lE_meas_dataset_dir") = autosave /\
  enabled (app' "chB_dataset_save_img") = autosave /\
  enabled (app' "chB_load_after_meas") = autosave /\
  checked (app' "chB_dataset_save_img") =
    autosave && checked (app "chB_dataset_save_img") /\
  checked (app' "chB_load_after_meas") =
    autosave && checked (app "chB_load_after_meas") /\
  (forall name, update_autosave_options app' name = app' name).
Proof.
  cbv zeta. repeat (split; [reflexivity|]).
  intros name.
  destruct (String.eqb_spec name "lE_meas_dataset_dir") as [->|H1];
    [destruct (app "chB_dataset_autosave") as [e [] t] eqn:E;
     vm_compute; rewrite ?E; reflexivity|].
  destruct (String.eqb_spec name "chB_dataset_save_img") as [->|H2];
    [destruct (app "chB_dataset_autosave") as [e [] t] eqn:E;
     vm_compute; rewrite ?E; reflexivity|].
  destruct (String.eqb_spec name "chB_load_after_meas") as [->|H3];
    [destruct (app "chB_dataset_autosave") as [e [] t] eqn:E;
     vm_compute; rewrite ?E; reflexivity|].
  unfold update_autosave_options.
  cbv beta iota zeta delta [setEnabled setChecked].
  rewrite !on_widget_other by assumption. reflexivity.
Qed.

End GuiFacts.
